(** * Refill request dispatch: a shallow embedding of server.py and print_agent.py

    The SQLite table [refill_requests] is modelled as the list of its rows in
    rowid order; each route handler of server.py is a function from the table
    to an HTTP outcome and the new table.  A Python [str] is the Rocq
    string of its UTF-8 bytes. *)

From Stdlib Require Import String Ascii List Bool ZArith Lia Sorted Permutation.
Import ListNotations.
Open Scope string_scope.

(** ** Data model: the [refill_requests] table *)

Inductive status := pending | printing | printed.

Definition status_eqb (a b : status) : bool :=
  match a, b with
  | pending, pending | printing, printing | printed, printed => true
  | _, _ => false
  end.

Record row := mk_row {
  id : string;
  rx_number : string;
  store_id : string;
  row_status : status;
  created_at : string;
  printed_at : option string;   (* NULL = None *)
  patient_name : option string  (* nullable column *)
}.

Definition db := list row.

(** The JSON object returned per request by [get_pending]. *)
Record snapshot := mk_snapshot {
  s_id : string;
  s_rx_number : string;
  s_store_id : string;
  s_created_at : string;
  s_patient_name : option string
}.

Definition to_snapshot (r : row) : snapshot :=
  mk_snapshot (id r) (rx_number r) (store_id r) (created_at r) (patient_name r).

(** Outcome of an HTTP handler: a JSON body or an error status
    (422 for a pydantic ValidationError, 404 for HTTPException, 500 for an
    uncaught sqlite3.IntegrityError). *)
Inductive http_result (A : Type) :=
| Ok (a : A)
| HttpError (code : Z).
Arguments Ok {A} a.
Arguments HttpError {A} code.

Definition mem (x : string) (l : list string) : bool :=
  existsb (String.eqb x) l.

(** ** Python strings

    A Python [str] is represented by its UTF-8 encoding (the program's own
    string literals are all ASCII, where the encoding is the identity).
    [str.isspace], [str.isdigit], [len] and indexing work on code points;
    the tables below are those of Python 3.11 (Unicode 14.0). *)

Definition byte (c : ascii) : Z := Z.of_nat (nat_of_ascii c).

Definition in_ranges (rs : list (Z * Z)) (cp : Z) : bool :=
  existsb (fun '(lo, hi) => (lo <=? cp) && (cp <=? hi))%Z rs.

(** The code points whose [str.isspace()] is true. *)
Definition space_ranges : list (Z * Z) :=
  [(9, 13); (28, 32); (133, 133); (160, 160); (5760, 5760); (8192, 8202); (8232, 8233);
   (8239, 8239); (8287, 8287); (12288, 12288)]%Z.

(** The code points whose [str.isdigit()] is true (Numeric_Type Digit or
    Decimal): the ASCII digits, but also e.g. U+00B2 SUPERSCRIPT TWO and
    the Arabic-Indic digits U+0660..U+0669. *)
Definition digit_ranges : list (Z * Z) :=
  [(48, 57); (178, 179); (185, 185); (1632, 1641); (1776, 1785); (1984, 1993);
   (2406, 2415); (2534, 2543); (2662, 2671); (2790, 2799); (2918, 2927); (3046, 3055);
   (3174, 3183); (3302, 3311); (3430, 3439); (3558, 3567); (3664, 3673); (3792, 3801);
   (3872, 3881); (4160, 4169); (4240, 4249); (4969, 4977); (6112, 6121); (6160, 6169);
   (6470, 6479); (6608, 6618); (6784, 6793); (6800, 6809); (6992, 7001); (7088, 7097);
   (7232, 7241); (7248, 7257); (8304, 8304); (8308, 8313); (8320, 8329); (9312, 9320);
   (9332, 9340); (9352, 9360); (9450, 9450); (9461, 9469); (9471, 9471);
   (10102, 10110); (10112, 10120); (10122, 10130); (42528, 42537); (43216, 43225);
   (43264, 43273); (43472, 43481); (43504, 43513); (43600, 43609); (44016, 44025);
   (65296, 65305); (66720, 66729); (68160, 68163); (68912, 68921); (69216, 69224);
   (69714, 69722); (69734, 69743); (69872, 69881); (69942, 69951); (70096, 70105);
   (70384, 70393); (70736, 70745); (70864, 70873); (71248, 71257); (71360, 71369);
   (71472, 71481); (71904, 71913); (72016, 72025); (72784, 72793); (73040, 73049);
   (73120, 73129); (92768, 92777); (92864, 92873); (93008, 93017); (120782, 120831);
   (123200, 123209); (123632, 123641); (125264, 125273); (127232, 127242);
   (130032, 130041)]%Z.

Definition py_isspace_cp (cp : Z) : bool := in_ranges space_ranges cp.
Definition py_isdigit_cp (cp : Z) : bool := in_ranges digit_ranges cp.

(** '0'..'9' (used for the spec's notion of a digit and by the ISO parser
    model below). *)
Definition py_isdigit_char (c : ascii) : bool :=
  let n := nat_of_ascii c in (48 <=? n)%nat && (n <=? 57)%nat.

Definition is_cont (c : ascii) : bool := (128 <=? byte c)%Z && (byte c <? 192)%Z.
Definition lead2 (c : ascii) : bool := (192 <=? byte c)%Z && (byte c <? 224)%Z.
Definition lead3 (c : ascii) : bool := (224 <=? byte c)%Z && (byte c <? 240)%Z.
Definition lead4 (c : ascii) : bool := (240 <=? byte c)%Z && (byte c <? 248)%Z.
Definition cp2 (c1 c2 : ascii) : Z := ((byte c1 - 192) * 64 + (byte c2 - 128))%Z.
Definition cp3 (c1 c2 c3 : ascii) : Z :=
  (((byte c1 - 224) * 64 + (byte c2 - 128)) * 64 + (byte c3 - 128))%Z.
Definition cp4 (c1 c2 c3 c4 : ascii) : Z :=
  ((((byte c1 - 240) * 64 + (byte c2 - 128)) * 64 + (byte c3 - 128)) * 64
   + (byte c4 - 128))%Z.

(** The code points of a string (-1 stands for a byte that is not valid
    UTF-8, which no Python [str] produces). *)
Fixpoint utf8_decode (s : string) : list Z :=
  match s with
  | EmptyString => []
  | String c1 r1 =>
      if (byte c1 <? 128)%Z then byte c1 :: utf8_decode r1 else
      match r1 with
      | EmptyString => [(-1)%Z]
      | String c2 r2 =>
          if lead2 c1 && is_cont c2 then cp2 c1 c2 :: utf8_decode r2 else
          match r2 with
          | EmptyString => (-1)%Z :: utf8_decode r1
          | String c3 r3 =>
              if lead3 c1 && is_cont c2 && is_cont c3 then cp3 c1 c2 c3 :: utf8_decode r3 else
              match r3 with
              | EmptyString => (-1)%Z :: utf8_decode r1
              | String c4 r4 =>
                  if lead4 c1 && is_cont c2 && is_cont c3 && is_cont c4
                  then cp4 c1 c2 c3 c4 :: utf8_decode r4
                  else (-1)%Z :: utf8_decode r1
              end
          end
      end
  end.

(** [str.lstrip()]: drops leading code points that are whitespace (all of
    them have at most three bytes). *)
Fixpoint lstrip (s : string) : string :=
  match s with
  | EmptyString => EmptyString
  | String c1 r1 =>
      if (byte c1 <? 128)%Z then (if py_isspace_cp (byte c1) then lstrip r1 else s) else
      match r1 with
      | EmptyString => s
      | String c2 r2 =>
          if lead2 c1 && is_cont c2 then
            (if py_isspace_cp (cp2 c1 c2) then lstrip r2 else s) else
          match r2 with
          | EmptyString => s
          | String c3 r3 =>
              if lead3 c1 && is_cont c2 && is_cont c3 && py_isspace_cp (cp3 c1 c2 c3)
              then lstrip r3 else s
          end
      end
  end.

Fixpoint rev_str (s : string) : string :=
  match s with
  | EmptyString => EmptyString
  | String c s' => rev_str s' ++ String c EmptyString
  end.

(** The same on the reversed bytes: drops trailing whitespace code points,
    whose bytes come last-first. *)
Fixpoint lstrip_rev (s : string) : string :=
  match s with
  | EmptyString => EmptyString
  | String c r1 =>
      if (byte c <? 128)%Z then (if py_isspace_cp (byte c) then lstrip_rev r1 else s) else
      match r1 with
      | EmptyString => s
      | String c1 r2 =>
          if lead2 c1 && is_cont c then
            (if py_isspace_cp (cp2 c1 c) then lstrip_rev r2 else s) else
          match r2 with
          | EmptyString => s
          | String c0 r3 =>
              if lead3 c0 && is_cont c1 && is_cont c && py_isspace_cp (cp3 c0 c1 c)
              then lstrip_rev r3 else s
          end
      end
  end.

(** [str.rstrip()] *)
Definition rstrip (s : string) : string := rev_str (lstrip_rev (rev_str s)).

(** [str.strip()] *)
Definition py_strip (s : string) : string := rstrip (lstrip s).

(** [str.isdigit()]: false on the empty string. *)
Definition py_isdigit (s : string) : bool :=
  match utf8_decode s with
  | [] => false
  | cps => forallb py_isdigit_cp cps
  end.

(** ** [RefillRequest] validators (pydantic field validators) *)

(** [validate_rx_number]: [None] is a raised ValueError.  [len(v)] counts
    code points and [v[0] not in "2468"] tests the first one. *)
Definition validate_rx_number (v : string) : option string :=
  let v := py_strip v in
  if negb (py_isdigit v) then None
  else if negb (length (utf8_decode v) =? 7)%nat then None
  else match utf8_decode v with
       | cp :: _ => if existsb (Z.eqb cp) [50; 52; 54; 56]%Z then Some v else None
       | [] => None
       end.

Section Server.

(** The keys of [STORES] (stores.py, the external store directory). *)
Variable STORES : list string.

Definition validate_store_id (v : string) : option string :=
  let v := py_strip v in
  if mem v STORES then Some v else None.

(** [submit_refill]: [request_id] (uuid4 prefix) and [now] (UTC isoformat)
    are the values the handler draws.  Validation happens before the
    handler runs; the INSERT fails on a duplicate primary key. *)
Definition submit_refill (request_id now : string)
    (rx store patient : string) (t : db) : http_result string * db :=
  match validate_rx_number rx, validate_store_id store with
  | Some rx', Some store' =>
      if mem request_id (map id t) then (HttpError 500%Z, t)
      else (Ok request_id,
            (t ++ [mk_row request_id rx' store' pending now None
                         (Some (py_strip patient))])%list)
  | _, _ => (HttpError 422%Z, t)
  end.

(** ORDER BY created_at ASC (BINARY collation): insertion sort on
    [String.leb]. *)
Fixpoint insert_by_created (r : row) (l : list row) : list row :=
  match l with
  | [] => [r]
  | r' :: l' => if String.leb (created_at r) (created_at r')
                then r :: l else r' :: insert_by_created r l'
  end.

Fixpoint sort_by_created (l : list row) : list row :=
  match l with
  | [] => []
  | r :: l' => insert_by_created r (sort_by_created l')
  end.

Definition is_pending_for (sid : string) (r : row) : bool :=
  String.eqb (store_id r) sid && status_eqb (row_status r) pending.

(** UPDATE refill_requests SET status = 'printing', printed_at = ?
    WHERE id IN (ids) *)
Definition set_printing (now : string) (ids : list string) (t : db) : db :=
  map (fun r => if mem (id r) ids
                then mk_row (id r) (rx_number r) (store_id r) printing
                            (created_at r) (Some now) (patient_name r)
                else r) t.

(** [get_pending store_id]; [now] is the printed_at stamp. *)
Definition get_pending (now sid : string) (t : db)
    : http_result (list snapshot) * db :=
  if negb (mem sid STORES) then (HttpError 404%Z, t) else
  let rows := sort_by_created (filter (is_pending_for sid) t) in
  match rows with
  | [] => (Ok [], t)
  | _ => let ids := map id rows in
         (Ok (map to_snapshot rows), set_printing now ids t)
  end.

(** [get_pending] as the statements it runs.  The sqlite3 module opens no
    transaction before a SELECT, so the SELECT (after the 404 check) and
    the later UPDATE + commit are two separate steps against the shared
    database file, and calls of other server processes may run between
    them.  A call is in one of three phases. *)
Inductive claim_phase :=
| ClaimStart (now sid : string)
| ClaimSelected (now : string) (rows : list row)
| ClaimDone (res : http_result (list snapshot)).

Definition claim_step (p : claim_phase) (t : db) : claim_phase * db :=
  match p with
  | ClaimStart now sid =>
      if negb (mem sid STORES) then (ClaimDone (HttpError 404%Z), t) else
      match sort_by_created (filter (is_pending_for sid) t) with
      | [] => (ClaimDone (Ok []), t)
      | rows => (ClaimSelected now rows, t)
      end
  | ClaimSelected now rows =>
      (ClaimDone (Ok (map to_snapshot rows)), set_printing now (map id rows) t)
  | ClaimDone _ => (p, t)
  end.

Fixpoint replace_nth {A} (k : nat) (x : A) (l : list A) : list A :=
  match l, k with
  | [], _ => []
  | _ :: l', O => x :: l'
  | y :: l', S k' => y :: replace_nth k' x l'
  end.

(** Concurrent calls: [sched] lists, step by step, which call runs its
    next statement. *)
Fixpoint run_claims (sched : list nat) (ps : list claim_phase) (t : db)
    : list claim_phase * db :=
  match sched with
  | [] => (ps, t)
  | k :: sched' =>
      match nth_error ps k with
      | Some p => let '(p', t') := claim_step p t in run_claims sched' (replace_nth k p' ps) t'
      | None => run_claims sched' ps t
      end
  end.

End Server.

(** [mark_printed]: UPDATE refill_requests SET status = 'printed' WHERE id = ? *)
Definition mark_printed (rid : string) (t : db) : http_result bool * db :=
  (Ok true,
   map (fun r => if String.eqb (id r) rid
                 then mk_row (id r) (rx_number r) (store_id r) printed
                             (created_at r) (printed_at r) (patient_name r)
                 else r) t).

(** [mark_print_error]: UPDATE ... SET status = 'pending', printed_at = NULL
    WHERE id = ? *)
Definition mark_print_error (rid : string) (t : db) : http_result bool * db :=
  (Ok true,
   map (fun r => if String.eqb (id r) rid
                 then mk_row (id r) (rx_number r) (store_id r) pending
                             (created_at r) None (patient_name r)
                 else r) t).


(** The operations of the request store, for reasoning about sequences. *)
Inductive op :=
| Submit (request_id now rx store patient : string)
| Claim (now sid : string)
| MarkPrinted (rid : string)
| MarkPrintFailed (rid : string).

Definition apply_op (STORES : list string) (o : op) (t : db) : db :=
  match o with
  | Submit rid now rx store patient => snd (submit_refill STORES rid now rx store patient t)
  | Claim now sid => snd (get_pending STORES now sid t)
  | MarkPrinted rid => snd (mark_printed rid t)
  | MarkPrintFailed rid => snd (mark_print_error rid t)
  end.

(** [created_at] order of ORDER BY created_at ASC. *)
Definition created_le (a b : row) : Prop :=
  String.leb (created_at a) (created_at b) = true.

(** A row after the UPDATE of [get_pending]. *)
Definition claim_row (now : string) (r : row) : row :=
  mk_row (id r) (rx_number r) (store_id r) printing
         (created_at r) (Some now) (patient_name r).

(** A row after the UPDATE of [mark_printed]. *)
Definition set_printed (rid : string) (r : row) : row :=
  if String.eqb (id r) rid
  then mk_row (id r) (rx_number r) (store_id r) printed
              (created_at r) (printed_at r) (patient_name r)
  else r.

(** How an operation changes an existing row [r] into [r'] (C2, as the
    code does it): the id stays; a claim of a known store moves that
    store's pending rows to 'printing' and stamps them; [mark_printed] and
    [mark_print_error] set the status of the row with their id whatever
    it was; every other row is left as it is. *)
Definition row_change (STORES : list string) (o : op) (r r' : row) : Prop :=
  id r' = id r /\
  match o with
  | Submit _ _ _ _ _ => r' = r
  | Claim now sid =>
      if mem sid STORES && is_pending_for sid r
      then row_status r' = printing /\ printed_at r' = Some now
      else r' = r
  | MarkPrinted rid =>
      if String.eqb (id r) rid then row_status r' = printed else r' = r
  | MarkPrintFailed rid =>
      if String.eqb (id r) rid then row_status r' = pending /\ printed_at r' = None
      else r' = r
  end.


(** The rx number format as [validate_rx_number] checks it: 7 code points,
    each one a digit for [str.isdigit], the first one the ASCII character
    2, 4, 6 or 8. *)
Definition rx_py_wellformed (s : string) : Prop :=
  length (utf8_decode s) = 7%nat /\ forallb py_isdigit_cp (utf8_decode s) = true /\
  exists cp rest, utf8_decode s = cp :: rest /\ In cp [50; 52; 54; 56]%Z.

(** ** print_agent.py: the label renderer *)

Definition nl : string := String (ascii_of_nat 10) EmptyString.

(** [str(n)] for an int; the fuel covers integers below 10^64. *)
Fixpoint z_digits (fuel : nat) (n : Z) (acc : string) : string :=
  match fuel with
  | O => acc
  | S f =>
      let acc' := String (ascii_of_nat (48 + Z.to_nat (n mod 10))) acc in
      if (n <? 10)%Z then acc' else z_digits f (n / 10)%Z acc'
  end.

Definition py_str_int (z : Z) : string :=
  if (z <? 0)%Z then "-" ++ z_digits 64 (- z)%Z "" else z_digits 64 z "".

(** A [datetime]; [tzoff] is the UTC offset in minutes ([None]: naive). *)
Record datetime := mk_dt {
  year : Z; month : Z; day : Z; hour : Z; minute : Z; second : Z;
  tzoff : option Z
}.

Definition pad2 (n : Z) : string :=
  if (n <? 10)%Z then "0" ++ py_str_int n else py_str_int n.

(** [strftime("%m/%d/%Y %I:%M %p")] (C locale; glibc does not pad %Y). *)
Definition strftime_label (d : datetime) : string :=
  let h12 := if (hour d mod 12 =? 0)%Z then 12%Z else (hour d mod 12)%Z in
  pad2 (month d) ++ "/" ++ pad2 (day d) ++ "/" ++ py_str_int (year d) ++ " "
  ++ pad2 h12 ++ ":" ++ pad2 (minute d) ++ " "
  ++ (if (hour d <? 12)%Z then "AM" else "PM").

(** [created_at.replace("Z", "+00:00")] *)
Fixpoint replace_Z (s : string) : string :=
  match s with
  | EmptyString => EmptyString
  | String c s' => if Ascii.eqb c "Z"%char then "+00:00" ++ replace_Z s'
                   else String c (replace_Z s')
  end.

(** [_vy]: convert visual Y (top-down) to ZPL ^FO X (bottom-up). *)
Definition _vy (visual_y height : Z) : Z := (406 - visual_y - height)%Z.

(** The f-string template: literal text, and the ^FO fields, each given by
    its visual Y, its height and its ^FO y (the second coordinate). *)
Inductive zpl_chunk :=
| Raw (s : string)
| Field (visual_y height fo_y : Z) (body : string).

Definition render_chunk (c : zpl_chunk) : string :=
  match c with
  | Raw s => s
  | Field vy h y body =>
      "^FO" ++ py_str_int (_vy vy h) ++ "," ++ py_str_int y ++ body ++ "^FS"
  end.

Definition render (cs : list zpl_chunk) : string :=
  fold_right (fun c acc => render_chunk c ++ acc) "" cs.

(** Lines 96-118 of the template, from ^XA to ^XZ. *)
Definition label_core (rx_number store_id patient_line time_str : string)
    : list zpl_chunk :=
  [Raw ("^XA" ++ nl ++ "^PW406" ++ nl ++ "^LL659" ++ nl ++ "^CF0,20" ++ nl
        ++ "^FWR" ++ nl ++ nl ++ "~SD25" ++ nl ++ nl);
   Field 70 34 20 "^A0R,34,34^FD*** REFILL REQUEST ***";
   Raw (nl ++ nl);
   Field 110 50 20 ("^A0R,50,50^FDRx# " ++ rx_number);
   Raw (nl ++ nl);
   Field 166 24 20 ("^A0R,24,24^FD" ++ patient_line);
   Raw (nl ++ nl);
   Field 196 20 20 ("^A0R,20,20^FDStore: " ++ store_id);
   Raw nl;
   Field 196 20 300 ("^A0R,20,20^FDSubmitted: " ++ time_str);
   Raw (nl ++ nl);
   Field 224 2 20 "^GB2,620,2";
   Raw nl;
   Field 232 22 20 "^A0R,22,22^FDPlease pull and process.";
   Raw (nl ++ nl);
   Field 262 50 20 ("^BY2,2,50^BCR,50,Y,N,N^FD" ++ rx_number);
   Raw (nl ++ nl ++ "^XZ")]%list.

(** The whole f-string: a newline after the opening quotes and one before
    the closing quotes. *)
Definition label_template (rx_number store_id patient_line time_str : string)
    : list zpl_chunk :=
  (Raw nl :: label_core rx_number store_id patient_line time_str ++ [Raw nl])%list.

(** [patient_line]: [patient_name] is a str or None (JSON null). *)
Definition patient_line_of (patient_name : option string) : string :=
  match patient_name with
  | Some s => if String.eqb s "" then "" else "Name: " ++ s
  | None => ""
  end.

Section Renderer.

(** [datetime.fromisoformat] ([None]: ValueError) and [dt.astimezone()]
    ([None]: OverflowError or another exception); the local time zone is
    part of [astimezone]. *)
Variable fromisoformat : string -> option datetime.
Variable astimezone : datetime -> option datetime.

(** The try block of lines 62-66: [None] when it raises. *)
Definition parse_created (created_at : string) : option string :=
  match fromisoformat (replace_Z created_at) with
  | Some dt => match astimezone dt with
               | Some dt' => Some (strftime_label dt')
               | None => None
               end
  | None => None
  end.

(** [generate_zpl_label]; [now] is [datetime.now()] as read by the
    except branch. *)
Definition generate_zpl_label (now : datetime) (rx_number store_id : string)
    (patient_name : option string) (created_at : string) : string :=
  let time_str := match parse_created created_at with
                  | Some s => s
                  | None => strftime_label now
                  end in
  let patient_line := patient_line_of patient_name in
  py_strip (render (label_template rx_number store_id patient_line time_str)).

End Renderer.

(** ** print_agent.py: one iteration of the polling loop *)

(** The observable actions of the agent: console output, a socket write to
    the printer, and the two report POSTs. *)
Inductive effect :=
| ConsoleOut (zpl : string)
| SendToPrinter (zpl printer_ip : string) (printer_port : Z)
| PostPrinted (rid : string)
| PostPrintError (rid : string).

Section Agent.

Variable fromisoformat : string -> option datetime.
Variable astimezone : datetime -> option datetime.
Variable STORES : list string.
(** The socket part of [send_to_printer] for a ZPL string: [Some true]
    when [sendall] returns, [Some false] when an OSError is raised (caught
    and logged; the function returns False), [None] when anything else is
    raised (e.g. a UnicodeEncodeError), which escapes. *)
Variable socket_send : string -> option bool.

(** [send_to_printer zpl printer_ip printer_port]: its socket actions and
    its outcome.  [sock.connect] raises OverflowError, which is no
    OSError, for a port outside 0..65535, before anything is sent. *)
Definition send_to_printer (zpl printer_ip : string) (printer_port : Z)
    : list effect * option bool :=
  if (0 <=? printer_port)%Z && (printer_port <=? 65535)%Z
  then ([SendToPrinter zpl printer_ip printer_port], socket_send zpl)
  else ([], None).

(** The [for req in data["requests"]] loop; reports reach the server, whose
    table [t] they update.  An exception that escapes [send_to_printer]
    leaves the loop (the round's [except Exception] only logs it): the
    remaining requests are not handled and nothing is reported. *)
Fixpoint handle_requests (printer_ip : string) (printer_port : Z)
    (store_id : string) (now : datetime) (reqs : list snapshot) (t : db)
    : list effect * db :=
  match reqs with
  | [] => ([], t)
  | req :: rest =>
      let zpl := generate_zpl_label fromisoformat astimezone now
                   (s_rx_number req) store_id (s_patient_name req) (s_created_at req) in
      let '(out, outcome) :=
        if negb (String.eqb printer_ip "")
        then send_to_printer zpl printer_ip printer_port
        else ([ConsoleOut zpl], Some true) in
      match outcome with
      | None => (out, t)
      | Some success =>
          let '(report, t1) :=
            if success then ([PostPrinted (s_id req)], snd (mark_printed (s_id req) t))
            else ([PostPrintError (s_id req)], snd (mark_print_error (s_id req) t)) in
          let '(effs, t2) := handle_requests printer_ip printer_port store_id now rest t1 in
          ((out ++ report ++ effs)%list, t2)
      end
  end.

(** One iteration of [poll_and_print]: GET /api/pending/{store_id}
    (an error status makes [raise_for_status] raise; it is logged), then the
    loop over the returned requests.  [srv_now] is the server's printed_at
    stamp and [now] the agent's [datetime.now()]. *)
Definition poll_once (printer_ip : string) (printer_port : Z) (store_id : string)
    (srv_now : string) (now : datetime) (t : db) : list effect * db :=
  match get_pending STORES srv_now store_id t with
  | (Ok reqs, t1) => handle_requests printer_ip printer_port store_id now reqs t1
  | (HttpError _, t1) => ([], t1)
  end.

End Agent.

(** ** A concrete model of the datetime functions *)

Definition is_leap (y : Z) : bool :=
  ((y mod 4 =? 0) && (negb (y mod 100 =? 0) || (y mod 400 =? 0)))%Z.

Definition days_in_month (y m : Z) : Z :=
  match m with
  | 2%Z => if is_leap y then 29 else 28
  | 4%Z | 6%Z | 9%Z | 11%Z => 30
  | _ => 31
  end.

Definition days_before_month (y m : Z) : Z :=
  (nth (Z.to_nat m) [0; 0; 31; 59; 90; 120; 151; 181; 212; 243; 273; 304; 334] 0
   + (if (2 <? m)%Z && is_leap y then 1 else 0))%Z.

(** [date.toordinal()]: 0001-01-01 is day 1. *)
Definition toordinal (y m d : Z) : Z :=
  let y1 := (y - 1)%Z in
  (y1 * 365 + y1 / 4 - y1 / 100 + y1 / 400 + days_before_month y m + d)%Z.

(** [_ord2ymd] of datetime.py. *)
Definition ord2ymd (n : Z) : Z * Z * Z :=
  let n := (n - 1)%Z in
  let n400 := (n / 146097)%Z in let n := (n mod 146097)%Z in
  let n100 := (n / 36524)%Z in let n := (n mod 36524)%Z in
  let n4 := (n / 1461)%Z in let n := (n mod 1461)%Z in
  let n1 := (n / 365)%Z in let n := (n mod 365)%Z in
  let year := (n400 * 400 + 1 + n100 * 100 + n4 * 4 + n1)%Z in
  if ((n1 =? 4) || (n100 =? 4))%Z then ((year - 1)%Z, 12%Z, 31%Z) else
  let leap := ((n1 =? 3) && (negb (n4 =? 24) || (n100 =? 3)))%Z in
  let month := Z.shiftr (n + 50) 5 in
  let preceding := (days_before_month (if leap then 4 else 1) month)%Z in
  let '(month, preceding) :=
    if (n <? preceding)%Z
    then ((month - 1)%Z,
          (preceding - days_in_month (if leap then 4 else 1) (month - 1))%Z)
    else (month, preceding) in
  (year, month, (n - preceding + 1)%Z).

Definition digit_val (c : ascii) : option Z :=
  if py_isdigit_char c then Some (Z.of_nat (nat_of_ascii c) - 48)%Z else None.

Fixpoint digits_val (s : string) (acc : Z) : option Z :=
  match s with
  | EmptyString => Some acc
  | String c s' => match digit_val c with
                   | Some d => digits_val s' (acc * 10 + d)%Z
                   | None => None
                   end
  end.

Definition num_at (n len : nat) (s : string) : option Z :=
  digits_val (substring n len s) 0.

Definition char_at (n : nat) (s : string) : string := substring n 1 s.

(** [datetime.fromisoformat] on the forms YYYY-MM-DDTHH:MM:SS and
    YYYY-MM-DDTHH:MM:SS+HH:MM (or -HH:MM), with its range checks.  It
    returns [Some] only on strings fromisoformat accepts, with the same
    value; the other forms fromisoformat accepts are not modelled and give
    [None]. *)
Definition fromisoformat_model (s : string) : option datetime :=
  let len := String.length s in
  if negb ((String.eqb (char_at 4 s) "-") && (String.eqb (char_at 7 s) "-")
           && (String.eqb (char_at 10 s) "T") && (String.eqb (char_at 13 s) ":")
           && (String.eqb (char_at 16 s) ":")) then None else
  match num_at 0 4 s, num_at 5 2 s, num_at 8 2 s, num_at 11 2 s,
        num_at 14 2 s, num_at 17 2 s with
  | Some y, Some mo, Some d, Some h, Some mi, Some sec =>
      if negb ((1 <=? y) && (1 <=? mo) && (mo <=? 12) && (1 <=? d)
               && (d <=? days_in_month y mo) && (h <=? 23) && (mi <=? 59)
               && (sec <=? 59))%Z then None
      else if (len =? 19)%nat then Some (mk_dt y mo d h mi sec None)
      else if (len =? 25)%nat && String.eqb (char_at 22 s) ":" then
        match num_at 20 2 s, num_at 23 2 s with
        | Some oh, Some om =>
            if negb ((oh <=? 23) && (om <=? 59))%Z then None
            else if String.eqb (char_at 19 s) "+"
            then Some (mk_dt y mo d h mi sec (Some (oh * 60 + om)%Z))
            else if String.eqb (char_at 19 s) "-"
            then Some (mk_dt y mo d h mi sec (Some (- (oh * 60 + om))%Z))
            else None
        | _, _ => None
        end
      else None
  | _, _, _, _, _, _ => None
  end.

(** [dt.astimezone()] for a local time zone at the fixed UTC offset
    [local_off] (minutes); a naive [dt] is taken as local time.  The
    conversion to UTC and then to local time raises OverflowError (here
    [None]) when a date leaves 0001-01-01 .. 9999-12-31. *)
Definition astimezone_model (local_off : Z) (dt : datetime) : option datetime :=
  let off := match tzoff dt with Some o => o | None => local_off end in
  let utc := (toordinal (year dt) (month dt) (day dt) * 1440
              + hour dt * 60 + minute dt - off)%Z in
  let in_range (mins : Z) := ((1 <=? mins / 1440) && (mins / 1440 <=? 3652059))%Z in
  if negb (in_range utc) then None else
  let loc := (utc + local_off)%Z in
  if negb (in_range loc) then None else
  let '(y, mo, d) := ord2ymd (loc / 1440)%Z in
  Some (mk_dt y mo d ((loc mod 1440) / 60)%Z (loc mod 60)%Z (second dt) (Some local_off)).

(** The ^FO fields of a template: visual Y, height and ^FO y. *)
Definition positioned (cs : list zpl_chunk) : list (Z * Z * Z) :=
  flat_map (fun c => match c with
                     | Field vy h y _ => [(vy, h, y)]
                     | Raw _ => []
                     end) cs.

(** The actions of the agent in console mode for the claimed requests. *)
Definition console_effects (fromisoformat : string -> option datetime)
    (astimezone : datetime -> option datetime) (store_id : string)
    (now : datetime) (reqs : list snapshot) : list effect :=
  flat_map (fun req =>
    [ConsoleOut (generate_zpl_label fromisoformat astimezone now (s_rx_number req)
                   store_id (s_patient_name req) (s_created_at req));
     PostPrinted (s_id req)]) reqs.

(** [mark_printed] for each id in turn. *)
Definition mark_all_printed (ids : list string) (t : db) : db :=
  fold_left (fun t rid => snd (mark_printed rid t)) ids t.

(** ** Invariants of the table *)

(** The printed_at column as the handlers keep it: NULL on a pending row,
    set on a printing row. *)
Definition row_ok (r : row) : Prop :=
  match row_status r with
  | pending => printed_at r = None
  | printing => printed_at r <> None
  | printed => True
  end.

Definition table_ok (t : db) : Prop := Forall row_ok t.

(** A row after the UPDATE of [mark_print_error]. *)
Definition reset_row (rid : string) (r : row) : row :=
  if String.eqb (id r) rid
  then mk_row (id r) (rx_number r) (store_id r) pending (created_at r) None (patient_name r)
  else r.

(** [mark_print_error] for each id in turn. *)
Definition mark_all_failed (ids : list string) (t : db) : db :=
  fold_left (fun t rid => snd (mark_print_error rid t)) ids t.

(** The ZPL the agent renders for a claimed request. *)
Definition request_zpl (fromisoformat : string -> option datetime)
    (astimezone : datetime -> option datetime) (store_id : string)
    (now : datetime) (req : snapshot) : string :=
  generate_zpl_label fromisoformat astimezone now (s_rx_number req) store_id
    (s_patient_name req) (s_created_at req).

(** ** print_qr_stickers.py *)

Definition URL : string := "https://refills.cdskc.me".
Definition LABEL_WIDTH : Z := 406.
Definition LABEL_LENGTH : Z := 659.

(** [generate_qr_sticker_zpl] *)
Definition generate_qr_sticker_zpl : string :=
  "^XA" ++ nl ++ "^PW" ++ py_str_int LABEL_WIDTH ++ nl ++ "^LL" ++ py_str_int LABEL_LENGTH
  ++ nl ++ "~SD25" ++ nl ++ "^FO81,208^GE243,243,2^FS" ++ nl
  ++ "^FO84,228^FB243,1,0,C^A0N,24,18^FDSCAN^FS" ++ nl
  ++ "^FO142,250^BQN,2,5^FDMA," ++ URL ++ "^FS" ++ nl
  ++ "^FO84,402^FB243,1,0,C^A0N,24,18^FDTO REFILL^FS" ++ nl
  ++ "^BY2,2,50" ++ nl ++ "^XZ".

(** Lines printed and socket writes made by the script. *)
Inductive qr_effect :=
| QrOut (line : string)
| QrSend (zpl ip : string) (port : Z).

(** How [main] ends: it returns, or [sys.exit(code)]. *)
Inductive qr_exit := QrReturn | QrExit (code : Z).

Section QrMain.

(** The outcome of [send_to_printer] on the i-th attempt (0-based). *)
Variable send_to_printer : nat -> bool.

(** [for i in range(args.count)] from index [i], [n] iterations left. *)
Fixpoint qr_loop (zpl ip : string) (port count : Z) (i n : nat)
    : list qr_effect * qr_exit :=
  match n with
  | O => ([QrOut "Done!"], QrReturn)
  | S n' =>
      let tag := "  [" ++ py_str_int (Z.of_nat i + 1) ++ "/" ++ py_str_int count ++ "]" in
      if send_to_printer i then
        let '(effs, ex) := qr_loop zpl ip port count (S i) n' in
        ((QrSend zpl ip port :: QrOut (tag ++ " OK") :: effs)%list, ex)
      else ([QrSend zpl ip port; QrOut (tag ++ " FAILED")], QrExit 1)
  end.

(** [main] after argument parsing. *)
Definition qr_main (count : Z) (printer : string) (port : Z) : list qr_effect * qr_exit :=
  let zpl := generate_qr_sticker_zpl in
  if String.eqb printer "" then
    ([QrOut ("No --printer specified. ZPL preview:" ++ nl); QrOut zpl], QrReturn)
  else
    let '(effs, ex) := qr_loop zpl printer port count 0 (Z.to_nat count) in
    (QrOut ("Printing " ++ py_str_int count ++ " sticker(s) to " ++ printer ++ ":"
            ++ py_str_int port ++ "...") :: effs, ex).

End QrMain.

Definition is_qr_send (e : qr_effect) : bool :=
  match e with QrSend _ _ _ => true | QrOut _ => false end.

(** The row a report leaves behind: 'printed' after a successful print
    ([mark_printed]), back to 'pending' after a failed one
    ([mark_print_error]). *)
Definition report_row (success : bool) (rid : string) (r : row) : row :=
  if success then set_printed rid r else reset_row rid r.

(** The actions of the agent in printer mode for the claimed requests: a
    socket write, then the report its outcome calls for ([sent zpl]: the
    write of [zpl] succeeded). *)
Definition printer_effects (fromisoformat : string -> option datetime)
    (astimezone : datetime -> option datetime) (sent : string -> bool)
    (printer_ip : string) (printer_port : Z) (store_id : string) (now : datetime)
    (reqs : list snapshot) : list effect :=
  flat_map (fun req =>
    let zpl := request_zpl fromisoformat astimezone store_id now req in
    [SendToPrinter zpl printer_ip printer_port;
     if sent zpl then PostPrinted (s_id req) else PostPrintError (s_id req)]) reqs.

(** The table after the reports of a polling round: each row updated by the
    report for its id, if any. *)
Definition after_reports (fromisoformat : string -> option datetime)
    (astimezone : datetime -> option datetime) (sent : string -> bool)
    (store_id : string) (now : datetime) (reqs : list snapshot) (t : db) : db :=
  map (fun r =>
    match find (fun req => String.eqb (s_id req) (id r)) reqs with
    | Some req =>
        report_row (sent (request_zpl fromisoformat astimezone store_id now req))
                   (s_id req) r
    | None => r
    end) t.

(** A sequence of requests to the server, in order. *)
Definition ops_run (STORES : list string) (ops : list op) (t : db) : db :=
  fold_left (fun t o => apply_op STORES o t) ops t.

(** The table holds a row with id [x], and every such row is 'printed'. *)
Definition printed_row_in (x : string) (t : db) : Prop :=
  (exists r, In r t /\ id r = x) /\
  (forall r, In r t -> id r = x -> row_status r = printed).

(** Socket writes among the script's effects. *)
Definition qr_sends (effs : list qr_effect) : nat := length (filter is_qr_send effs).

(** A sample table: two pending requests for store 157 (submitted out of
    id order), one for store 200 and one already printed. *)
Definition sample_stores : list string := ["157"; "200"].

Definition sample_db : db :=
  [mk_row "r2" "2468024" "157" pending "2026-10-16T12:00:05.120000+00:00" None (Some "J");
   mk_row "r1" "4681357" "157" pending "2026-10-16T12:00:01.500000+00:00" None (Some "");
   mk_row "r3" "8000001" "200" pending "2026-10-16T11:59:00.000001+00:00" None (Some "A");
   mk_row "r4" "6000002" "157" printed "2026-10-16T11:00:00.000001+00:00"
          (Some "2026-10-16T11:00:05.000001+00:00") (Some "B")].



(** The printed request of the sample table. *)
Definition sample_r4 : row := nth 3 sample_db (mk_row "" "" "" pending "" None None).

(** * Proofs *)

Example rx_examples :
  map validate_rx_number ["1234567"; "123456"; "24680aa"; "2468012"; " 2468012"]
  = [None; None; None; Some "2468012"; Some "2468012"].
Proof. reflexivity. Qed.

(** ** Sorting: ORDER BY created_at *)

Lemma insert_by_created_perm (r : row) (l : list row) :
  Permutation (insert_by_created r l) (r :: l).
Proof.
  induction l as [|r' l IH]; simpl; [reflexivity|].
  destruct (String.leb (created_at r) (created_at r')); [reflexivity|].
  rewrite IH. apply perm_swap.
Qed.

Lemma sort_by_created_perm (l : list row) :
  Permutation (sort_by_created l) l.
Proof.
  induction l as [|r l IH]; simpl; [reflexivity|].
  rewrite insert_by_created_perm, IH. reflexivity.
Qed.

Lemma leb_false_flip (a b : string) :
  String.leb a b = false -> String.leb b a = true.
Proof.
  intros H. destruct (String.leb_total a b) as [H'|H']; congruence.
Qed.

Lemma insert_by_created_sorted (r : row) (l : list row) :
  Sorted created_le l -> Sorted created_le (insert_by_created r l).
Proof.
  induction l as [|r' l IH]; simpl; intros Hs.
  - repeat constructor.
  - destruct (String.leb (created_at r) (created_at r')) eqn:E.
    + constructor; [exact Hs| constructor; exact E].
    + apply Sorted_inv in Hs as [Hs Hh].
      constructor; [apply IH; exact Hs|].
      destruct l as [|r'' l]; simpl.
      * constructor. apply leb_false_flip. exact E.
      * destruct (String.leb (created_at r) (created_at r'')).
        -- constructor. apply leb_false_flip. exact E.
        -- inversion Hh; subst. constructor. assumption.
Qed.

Lemma sort_by_created_sorted (l : list row) :
  Sorted created_le (sort_by_created l).
Proof.
  induction l as [|r l IH]; simpl; [constructor|].
  apply insert_by_created_sorted. exact IH.
Qed.

(** ** Helper facts on the table *)

Lemma mem_In (x : string) (l : list string) : mem x l = true <-> In x l.
Proof.
  unfold mem. rewrite existsb_exists. split.
  - intros [y [Hy E]]. apply String.eqb_eq in E. subst. exact Hy.
  - intros H. exists x. split; [exact H| apply String.eqb_refl].
Qed.

(** [id] is the PRIMARY KEY: two rows of the table with the same id are the
    same row. *)
Lemma NoDup_map_inj {A B} (f : A -> B) (l : list A) (x y : A) :
  NoDup (map f l) -> In x l -> In y l -> f x = f y -> x = y.
Proof.
  induction l as [|a l IH]; simpl; [tauto|].
  intros Hnd Hx Hy E. inversion Hnd as [|? ? Hnin Hnd']; subst.
  destruct Hx as [<-|Hx]; destruct Hy as [<-|Hy]; auto.
  - exfalso. apply Hnin. rewrite E. apply in_map. exact Hy.
  - exfalso. apply Hnin. rewrite <- E. apply in_map. exact Hx.
Qed.

Lemma filter_nil_none {A} (p : A -> bool) (l : list A) :
  filter p l = [] -> forall x, In x l -> p x = false.
Proof.
  induction l as [|a l IH]; simpl; [tauto|].
  destruct (p a) eqn:E; [discriminate|].
  intros H x [<-|Hx]; auto.
Qed.

(** The ids of the sample table are distinct. *)
Lemma sample_db_ids : NoDup (map id sample_db).
Proof. simpl. repeat constructor; simpl; intuition discriminate. Qed.

(** ** C1: claimPending *)

(** C1: for a known store [sid] (and a table whose ids are distinct, as the
    PRIMARY KEY guarantees), [get_pending] returns, in ascending
    [created_at] order, the snapshot (id, rx_number, store_id, created_at,
    patient_name) of exactly the rows that were pending for [sid], and the
    new table is the old one with exactly those rows set to 'printing' with
    [printed_at] stamped; with no pending row it returns an empty list and
    leaves the table unchanged. *)
Theorem get_pending_claims (STORES : list string) (now sid : string) (t : db)
    (Hknown : mem sid STORES = true) (Hpk : NoDup (map id t)) :
  (exists rows,
     Permutation rows (filter (is_pending_for sid) t) /\
     Sorted created_le rows /\
     get_pending STORES now sid t =
       (Ok (map to_snapshot rows),
        map (fun r => if is_pending_for sid r then claim_row now r else r) t)) /\
  (filter (is_pending_for sid) t = [] -> get_pending STORES now sid t = (Ok [], t)).
Proof.
  assert (Hset : forall rows, Permutation rows (filter (is_pending_for sid) t) ->
            set_printing now (map id rows) t =
            map (fun r => if is_pending_for sid r then claim_row now r else r) t).
  { intros rows Hp. unfold set_printing. apply map_ext_in. intros r Hr.
    destruct (is_pending_for sid r) eqn:Ep.
    - assert (Hin : mem (id r) (map id rows) = true).
      { apply mem_In, in_map. apply (Permutation_in _ (Permutation_sym Hp)).
        apply filter_In. auto. }
      rewrite Hin. reflexivity.
    - destruct (mem (id r) (map id rows)) eqn:Em; [|reflexivity].
      exfalso. apply mem_In, in_map_iff in Em as [r' [E Hr']].
      apply (Permutation_in _ Hp), filter_In in Hr' as [Hr' Ep'].
      rewrite (NoDup_map_inj id t r' r Hpk Hr' Hr E) in Ep'. congruence. }
  unfold get_pending. rewrite Hknown. simpl. split.
  - exists (sort_by_created (filter (is_pending_for sid) t)).
    split; [apply sort_by_created_perm|].
    split; [apply sort_by_created_sorted|].
    destruct (sort_by_created (filter (is_pending_for sid) t)) as [|r0 rows] eqn:Es.
    + f_equal. transitivity (map (fun r : row => r) t); [symmetry; apply map_id|].
      apply map_ext_in.
      intros r Hr.
      pose proof (sort_by_created_perm (filter (is_pending_for sid) t)) as Hp.
      rewrite Es in Hp. apply Permutation_nil in Hp.
      rewrite (filter_nil_none _ _ Hp r Hr). reflexivity.
    + f_equal. rewrite <- Es. apply Hset. apply sort_by_created_perm.
  - intros Hnil. rewrite Hnil. reflexivity.
Qed.

(** ** C5: two successive claims are disjoint *)

Lemma set_printing_no_pending (now sid : string) (ids : list string) (t : db) (r : row) :
  In r (filter (is_pending_for sid) (set_printing now ids t)) -> ~ In (id r) ids.
Proof.
  unfold set_printing. rewrite filter_In, in_map_iff.
  intros [[r0 [E Hr0]] Hp] Hid. subst r.
  destruct (mem (id r0) ids) eqn:Em.
  - unfold is_pending_for in Hp. simpl in Hp.
    rewrite andb_false_r in Hp. discriminate.
  - apply mem_In in Hid. congruence.
Qed.

Lemma get_pending_ids (STORES : list string) (now sid : string) (t : db)
    (l : list snapshot) (t' : db) :
  get_pending STORES now sid t = (Ok l, t') ->
  (exists ids, t' = set_printing now ids t /\ map s_id l = ids) \/ (l = [] /\ t' = t).
Proof.
  unfold get_pending. destruct (negb (mem sid STORES)); [discriminate|].
  destruct (sort_by_created (filter (is_pending_for sid) t)) as [|r rows] eqn:Es.
  - intros H. inversion H. right. auto.
  - intros H. inversion H; subst. left. exists (map id (r :: rows)).
    split; [reflexivity|]. simpl. rewrite map_map. reflexivity.
Qed.

Lemma get_pending_selected (STORES : list string) (now sid : string) (t : db)
    (l : list snapshot) (t' : db) (x : string) :
  get_pending STORES now sid t = (Ok l, t') -> In x (map s_id l) ->
  exists r, In r (filter (is_pending_for sid) t) /\ id r = x.
Proof.
  unfold get_pending. destruct (negb (mem sid STORES)); [discriminate|].
  destruct (sort_by_created (filter (is_pending_for sid) t)) as [|r rows] eqn:Es.
  - intros H. inversion H; subst. simpl. tauto.
  - intros H Hx. injection H as Hl Ht.
    assert (Hids : map s_id l = map id (r :: rows)).
    { rewrite <- Hl. simpl. f_equal. rewrite map_map. reflexivity. }
    rewrite Hids in Hx.
    apply in_map_iff in Hx as [r' [E Hr']]. exists r'. split; [|exact E].
    rewrite <- Es in Hr'. apply (Permutation_in _ (sort_by_created_perm _)). exact Hr'.
Qed.

(** C5: for every store and every table, calling [get_pending] twice in a
    row (no operation in between) yields two result lists with no id in
    common. *)
Theorem claim_twice_disjoint (STORES : list string) (now1 now2 sid : string)
    (t t1 t2 : db) (l1 l2 : list snapshot)
    (H1 : get_pending STORES now1 sid t = (Ok l1, t1))
    (H2 : get_pending STORES now2 sid t1 = (Ok l2, t2)) :
  forall x, In x (map s_id l1) -> ~ In x (map s_id l2).
Proof.
  intros x Hx1 Hx2.
  destruct (get_pending_selected _ _ _ _ _ _ x H2 Hx2) as [r [Hr E]].
  destruct (get_pending_ids _ _ _ _ _ _ H1) as [[ids [-> Hids]]|[-> _]].
  - apply (set_printing_no_pending now1 sid ids t r Hr). subst. exact Hx1.
  - exact Hx1.
Qed.

(** ** C6: markPrinted *)

Lemma mark_printed_map (rid : string) (t : db) :
  snd (mark_printed rid t) = map (set_printed rid) t.
Proof. reflexivity. Qed.

(** C6: [mark_printed] always answers success; it moves a 'printing' row
    with that id to 'printed'; it never moves a 'printed' row to another
    status; on an unknown id or when the rows with that id are already
    'printed' it leaves the table unchanged; calling it twice has the same
    effect as calling it once. *)
Theorem mark_printed_idempotent (rid : string) (t : db) :
  fst (mark_printed rid t) = Ok true /\
  (forall i r, nth_error t i = Some r -> id r = rid -> row_status r = printing ->
     exists r', nth_error (snd (mark_printed rid t)) i = Some r' /\ row_status r' = printed) /\
  (forall i r, nth_error t i = Some r -> row_status r = printed ->
     exists r', nth_error (snd (mark_printed rid t)) i = Some r' /\ row_status r' = printed) /\
  (~ In rid (map id t) -> snd (mark_printed rid t) = t) /\
  ((forall r, In r t -> id r = rid -> row_status r = printed) ->
     snd (mark_printed rid t) = t) /\
  snd (mark_printed rid (snd (mark_printed rid t))) = snd (mark_printed rid t).
Proof.
  rewrite !mark_printed_map. split; [reflexivity|].
  split; [|split; [|split; [|split]]].
  - intros i r Hi <- _. rewrite nth_error_map, Hi. simpl.
    eexists; split; [reflexivity|]. unfold set_printed. rewrite String.eqb_refl. reflexivity.
  - intros i r Hi Hs. rewrite nth_error_map, Hi. simpl.
    eexists; split; [reflexivity|]. unfold set_printed.
    destruct (String.eqb (id r) rid); [reflexivity|exact Hs].
  - intros Hn. transitivity (map (fun r : row => r) t); [|apply map_id].
    apply map_ext_in. intros r Hr. unfold set_printed.
    destruct (String.eqb (id r) rid) eqn:E; [|reflexivity].
    apply String.eqb_eq in E. exfalso. apply Hn. rewrite <- E. apply in_map. exact Hr.
  - intros Hp. transitivity (map (fun r : row => r) t); [|apply map_id].
    apply map_ext_in. intros r Hr. unfold set_printed.
    destruct (String.eqb (id r) rid) eqn:E; [|reflexivity].
    apply String.eqb_eq in E. rewrite <- (Hp r Hr E). destruct r; reflexivity.
  - rewrite map_map. apply map_ext. intros r. unfold set_printed.
    destruct (String.eqb (id r) rid) eqn:E; simpl; rewrite ?E; reflexivity.
Qed.

(** ** C3: concurrent claims *)

(** One call run on its own is [get_pending]. *)
Lemma claim_steps_get_pending (STORES : list string) (now sid : string) (t : db) :
  run_claims STORES [0; 0]%nat [ClaimStart now sid] t =
  ([ClaimDone (fst (get_pending STORES now sid t))], snd (get_pending STORES now sid t)).
Proof.
  unfold get_pending. simpl. destruct (negb (mem sid STORES)); [reflexivity|].
  destruct (sort_by_created (filter (is_pending_for sid) t)); reflexivity.
Qed.

(** C3 fails: two calls for the same store whose statements interleave as
    SELECT 1, SELECT 2, UPDATE 1, UPDATE 2 both return the two pending
    requests of store 157 of the sample table. *)
Lemma concurrent_claims_overlap :
  ~ (forall STORES sched now1 now2 sid t l1 l2 t',
       NoDup (map id t) ->
       run_claims STORES sched [ClaimStart now1 sid; ClaimStart now2 sid] t =
         ([ClaimDone (Ok l1); ClaimDone (Ok l2)], t') ->
       forall x, In x (map s_id l1) -> ~ In x (map s_id l2)).
Proof.
  intros H.
  set (rows := sort_by_created (filter (is_pending_for "157") sample_db)).
  refine (H sample_stores [0; 1; 0; 1]%nat "2026-10-16T12:01:00+00:00"
            "2026-10-16T12:01:00.000100+00:00" "157" sample_db
            (map to_snapshot rows) (map to_snapshot rows)
            (set_printing "2026-10-16T12:01:00.000100+00:00" (map id rows)
               (set_printing "2026-10-16T12:01:00+00:00" (map id rows) sample_db))
            sample_db_ids _ "r2" _ _).
  - vm_compute. reflexivity.
  - vm_compute. tauto.
  - vm_compute. tauto.
Qed.

(** ** C2: status transitions *)

Lemma nth_error_map_none {A B} (f : A -> B) (l : list A) (i : nat) :
  nth_error l i = None -> nth_error (map f l) i = None.
Proof. intros H. rewrite nth_error_map, H. reflexivity. Qed.

Lemma set_printing_nth (now : string) (ids : list string) (t : db) (i : nat) (r : row) :
  nth_error t i = Some r ->
  nth_error (set_printing now ids t) i = Some (if mem (id r) ids then claim_row now r else r).
Proof. intros Hi. unfold set_printing. rewrite nth_error_map, Hi. reflexivity. Qed.

(** C2 (as stated) fails: [mark_print_error] sets any row with the id to
    'pending', also a 'printed' one. *)
Lemma print_error_reopens_printed :
  ~ (forall STORES o t i r r',
       nth_error t i = Some r -> nth_error (apply_op STORES o t) i = Some r' ->
       row_status r = printed -> row_status r' = printed).
Proof.
  intros H.
  specialize (H ["157"] (MarkPrintFailed "a1b2c3d4")
                [mk_row "a1b2c3d4" "2468012" "157" printed
                        "2026-10-16T12:00:00+00:00" (Some "2026-10-16T12:00:05+00:00")
                        (Some "J")] 0%nat).
  simpl in H. specialize (H _ _ eq_refl eq_refl eq_refl). discriminate.
Qed.

(** C2 (amended): with distinct ids (PRIMARY KEY), an operation keeps
    each row's id and position and changes a row only as [row_change]
    says: a claim of a known store moves exactly that store's pending rows
    to 'printing' (stamping printed_at); [mark_printed id] sets the row
    with that id to 'printed' and [mark_print_error id] sets it to
    'pending' (clearing printed_at), from any status; submit changes no
    existing row; no other row changes; every row an operation adds is
    'pending'. *)
Theorem status_changes (STORES : list string) (o : op) (t : db)
    (Hpk : NoDup (map id t)) :
  (forall i r, nth_error t i = Some r ->
     exists r', nth_error (apply_op STORES o t) i = Some r' /\ row_change STORES o r r') /\
  (forall i r', nth_error t i = None -> nth_error (apply_op STORES o t) i = Some r' ->
     row_status r' = pending).
Proof.
  destruct o as [rid now rx store patient|now sid|rid|rid]; simpl.
  - unfold submit_refill.
    destruct (validate_rx_number rx), (validate_store_id STORES store);
      try destruct (mem rid (map id t)); simpl;
      try (split; [intros i r Hi; exists r; repeat split; exact Hi
                  |intros i r' Hn Hs; congruence]).
    split.
    + intros i r Hi. exists r. repeat split.
      rewrite nth_error_app1; [exact Hi|]. apply nth_error_Some. congruence.
    + intros i r' Hn Hs. apply nth_error_None in Hn.
      rewrite nth_error_app2 in Hs by exact Hn.
      destruct (i - length t)%nat as [|k]; simpl in Hs.
      * injection Hs as <-. reflexivity.
      * destruct k; discriminate.
  - unfold get_pending. destruct (mem sid STORES) eqn:Ems; simpl.
    2: { split; [intros i r Hi; exists r; split; [exact Hi|]
                 |intros i r' Hn Hs; congruence].
         split; [reflexivity|]. rewrite Ems. reflexivity. }
    assert (Hsel : forall r, In r t ->
              mem (id r) (map id (sort_by_created (filter (is_pending_for sid) t)))
              = is_pending_for sid r).
    { intros r Hr. destruct (is_pending_for sid r) eqn:Hp.
      - apply mem_In, in_map.
        apply (Permutation_in _ (Permutation_sym (sort_by_created_perm _))), filter_In.
        auto.
      - destruct (mem (id r) (map id (sort_by_created (filter (is_pending_for sid) t))))
          eqn:Em; [|reflexivity].
        apply mem_In, in_map_iff in Em as [r1 [E Hr1]].
        apply (Permutation_in _ (sort_by_created_perm _)), filter_In in Hr1 as [Hr1 Hp1].
        rewrite (NoDup_map_inj id t r1 r Hpk Hr1 Hr E) in Hp1. congruence. }
    destruct (sort_by_created (filter (is_pending_for sid) t)) as [|r0 rows] eqn:Es; simpl.
    { split; [|intros i r' Hn Hs; congruence].
      intros i r Hi. exists r. split; [exact Hi|split; [reflexivity|]].
      rewrite Ems, <- (Hsel r (nth_error_In _ _ Hi)). reflexivity. }
    split.
    + intros i r Hi. erewrite set_printing_nth by exact Hi.
      eexists; split; [reflexivity|].
      change (id r0 :: map id rows) with (map id (r0 :: rows)).
      unfold row_change. rewrite Ems, <- (Hsel r (nth_error_In _ _ Hi)).
      destruct (mem (id r) (map id (r0 :: rows))); simpl; auto.
    + intros i r' Hn Hs. unfold set_printing in Hs.
      rewrite (nth_error_map_none _ _ _ Hn) in Hs. discriminate.
  - split.
    + intros i r Hi. rewrite nth_error_map, Hi. simpl. eexists; split; [reflexivity|].
      unfold row_change. destruct (String.eqb (id r) rid); simpl; auto.
    + intros i r' Hn Hs. rewrite (nth_error_map_none _ _ _ Hn) in Hs. discriminate.
  - split.
    + intros i r Hi. rewrite nth_error_map, Hi. simpl. eexists; split; [reflexivity|].
      unfold row_change. destruct (String.eqb (id r) rid); simpl; auto.
    + intros i r' Hn Hs. rewrite (nth_error_map_none _ _ _ Hn) in Hs. discriminate.
Qed.

(** ** C4: submit *)

Lemma existsb_Zeqb_In (x : Z) (l : list Z) : existsb (Z.eqb x) l = true <-> In x l.
Proof.
  rewrite existsb_exists. split.
  - intros [y [Hy E]]. apply Z.eqb_eq in E. subst. exact Hy.
  - intros H. exists x. split; [exact H|apply Z.eqb_refl].
Qed.

Lemma validate_rx_number_spec (v v' : string) :
  validate_rx_number v = Some v' <-> rx_py_wellformed (py_strip v) /\ v' = py_strip v.
Proof.
  unfold validate_rx_number, rx_py_wellformed, py_isdigit. cbv zeta.
  generalize (py_strip v) as s. intros s.
  destruct (utf8_decode s) as [|cp rest] eqn:Eu.
  - split; [discriminate|]. intros [[H _] _]. discriminate.
  - change (match cp :: rest with [] => false | _ :: _ => forallb py_isdigit_cp (cp :: rest) end)
      with (forallb py_isdigit_cp (cp :: rest)).
    destruct (forallb py_isdigit_cp (cp :: rest)) eqn:Ed; cbv [negb].
    + destruct (length (cp :: rest) =? 7)%nat eqn:El.
      * apply Nat.eqb_eq in El.
        destruct (existsb (Z.eqb cp) [50; 52; 54; 56]%Z) eqn:Em.
        -- apply existsb_Zeqb_In in Em. split.
           ++ intros H. injection H as <-. repeat split; auto. eauto.
           ++ intros [_ ->]. reflexivity.
        -- split; [discriminate|]. intros [[_ [_ [c' [r [E Hin]]]]] _].
           injection E as <- <-. apply existsb_Zeqb_In in Hin. congruence.
      * split; [discriminate|]. intros [[Hl _] _].
        apply Nat.eqb_neq in El. contradiction.
    + split; [discriminate|]. intros [[_ [Hd _]] _]. discriminate.
Qed.

Lemma validate_store_id_spec (STORES : list string) (v v' : string) :
  validate_store_id STORES v = Some v' <-> In (py_strip v) STORES /\ v' = py_strip v.
Proof.
  unfold validate_store_id. cbv zeta.
  destruct (mem (py_strip v) STORES) eqn:E.
  - apply mem_In in E. split; [intros H; injection H as <-; auto|intros [_ ->]; reflexivity].
  - split; [discriminate|]. intros [H _]. apply mem_In in H. congruence.
Qed.



(** ** Strings: [str.strip] on the label *)

Lemma sapp_assoc (a b c : string) : (a ++ b) ++ c = a ++ (b ++ c).
Proof. induction a as [|x a IH]; simpl; [reflexivity|]. rewrite IH. reflexivity. Qed.

Lemma sapp_nil_r (a : string) : a ++ "" = a.
Proof. induction a as [|x a IH]; simpl; [reflexivity|]. rewrite IH. reflexivity. Qed.

Lemma rev_str_app (a b : string) : rev_str (a ++ b) = rev_str b ++ rev_str a.
Proof.
  induction a as [|x a IH]; simpl.
  - rewrite sapp_nil_r. reflexivity.
  - rewrite IH, sapp_assoc. reflexivity.
Qed.

Lemma rev_str_involutive (a : string) : rev_str (rev_str a) = a.
Proof.
  induction a as [|x a IH]; simpl; [reflexivity|].
  rewrite rev_str_app, IH. reflexivity.
Qed.

Lemma py_strip_frame (X : string) (c z : ascii) (Y Y' : string) :
  X = String c Y -> (byte c <? 128)%Z = true -> py_isspace_cp (byte c) = false ->
  X = Y' ++ String z EmptyString -> (byte z <? 128)%Z = true ->
  py_isspace_cp (byte z) = false ->
  py_strip (nl ++ X ++ nl) = X.
Proof.
  intros E1 Hc Hc' E2 Hz Hz'. unfold py_strip, rstrip.
  change (lstrip (nl ++ X ++ nl)) with (lstrip (X ++ nl)).
  replace (lstrip (X ++ nl)) with (X ++ nl)
    by (rewrite E1; cbn [lstrip append]; rewrite Hc, Hc'; reflexivity).
  rewrite rev_str_app. change (rev_str nl) with nl.
  change (lstrip_rev (nl ++ rev_str X)) with (lstrip_rev (rev_str X)).
  rewrite E2 at 1. rewrite rev_str_app. change (rev_str (String z EmptyString)) with (String z EmptyString).
  cbn [append lstrip_rev]. rewrite Hz, Hz'. cbn [rev_str].
  rewrite rev_str_involutive. symmetry. exact E2.
Qed.


Lemma render_app (xs ys : list zpl_chunk) : render (xs ++ ys) = render xs ++ render ys.
Proof.
  induction xs as [|x xs IH]; simpl; [reflexivity|].
  unfold render in *. simpl. rewrite IH, sapp_assoc. reflexivity.
Qed.

Lemma label_core_shape (rx st pl ts : string) :
  exists mid, render (label_core rx st pl ts) = "^XA" ++ mid ++ "^XZ".
Proof.
  set (core := label_core rx st pl ts).
  assert (Hc : core = (removelast core ++ [Raw (nl ++ nl ++ "^XZ")])%list) by reflexivity.
  rewrite Hc, render_app.
  exists ((nl ++ "^PW406" ++ nl ++ "^LL659" ++ nl ++ "^CF0,20" ++ nl
          ++ "^FWR" ++ nl ++ nl ++ "~SD25" ++ nl ++ nl)
          ++ render (tl (removelast core)) ++ nl ++ nl).
  unfold render at 3. simpl fold_right. rewrite sapp_nil_r.
  change (removelast core) with (Raw ("^XA" ++ nl ++ "^PW406" ++ nl ++ "^LL659" ++ nl
        ++ "^CF0,20" ++ nl ++ "^FWR" ++ nl ++ nl ++ "~SD25" ++ nl ++ nl)
        :: tl (removelast core)).
  unfold render at 1. simpl fold_right. fold (render (tl (removelast core))).
  rewrite !sapp_assoc. reflexivity.
Qed.

Lemma generate_zpl_label_core (fromisoformat : string -> option datetime)
    (astimezone : datetime -> option datetime) (now : datetime)
    (rx st : string) (pn : option string) (created : string) :
  generate_zpl_label fromisoformat astimezone now rx st pn created =
  render (label_core rx st (patient_line_of pn)
            (match parse_created fromisoformat astimezone created with
             | Some s => s | None => strftime_label now end)).
Proof.
  unfold generate_zpl_label. cbv zeta.
  set (ts := match parse_created fromisoformat astimezone created with
             | Some s => s | None => strftime_label now end).
  unfold label_template.
  change (render (Raw nl :: (label_core rx st (patient_line_of pn) ts ++ [Raw nl])%list))
    with (nl ++ render (label_core rx st (patient_line_of pn) ts ++ [Raw nl])%list).
  rewrite render_app.
  change (render [Raw nl]) with (nl ++ "").
  rewrite sapp_nil_r.
  destruct (label_core_shape rx st (patient_line_of pn) ts) as [mid Hm].
  apply (py_strip_frame _ "^"%char "Z"%char (("XA" ++ mid) ++ "^XZ") ("^XA" ++ mid ++ "^X"));
    [rewrite Hm; reflexivity|reflexivity|reflexivity| |reflexivity|reflexivity].
  rewrite Hm, !sapp_assoc. reflexivity.
Qed.

(** ** C7: the coordinate transform *)

(** C7: every ^FO field of the label gets its X coordinate from [_vy],
    which computes 406 - visual_y - height; the eight fields have the
    visual positions of the layout table (native X 302, 246, 216, 190, 190,
    180, 152, 94), and no literal text of the template holds a ^FO of its
    own. *)
Theorem label_layout_via_vy (rx st pl ts : string) :
  (forall vy h, _vy vy h = (406 - vy - h)%Z) /\
  positioned (label_core rx st pl ts) =
    [(70, 34, 20); (110, 50, 20); (166, 24, 20); (196, 20, 20); (196, 20, 300);
     (224, 2, 20); (232, 22, 20); (262, 50, 20)]%Z /\
  map (fun '(vy, h, _) => _vy vy h) (positioned (label_core rx st pl ts)) =
    [302; 246; 216; 190; 190; 180; 152; 94]%Z /\
  (forall c, In c (label_core rx st pl ts) ->
     match c with
     | Field vy h y body =>
         render_chunk c = "^FO" ++ py_str_int (406 - vy - h) ++ "," ++ py_str_int y
                          ++ body ++ "^FS"
     | Raw s => String.index 0 "^FO" s = None
     end).
Proof.
  split; [reflexivity|]. split; [reflexivity|]. split; [reflexivity|].
  intros c Hc. simpl in Hc.
  repeat (destruct Hc as [<-|Hc]; [reflexivity|]). destruct Hc.
Qed.

(** ** C8: the label always renders *)

(** C8: for every input (any created_at, parseable or not, and any
    behaviour of fromisoformat and astimezone) [generate_zpl_label] yields
    the full label text from ^XA to ^XZ with all its fields; when the
    timestamp does not parse or convert, the time shown is the current
    local time. *)
Theorem generate_label_total (fromisoformat : string -> option datetime)
    (astimezone : datetime -> option datetime) (now : datetime)
    (rx st : string) (pn : option string) (created : string) :
  (exists ts,
     generate_zpl_label fromisoformat astimezone now rx st pn created =
       render (label_core rx st (patient_line_of pn) ts) /\
     (parse_created fromisoformat astimezone created = None -> ts = strftime_label now)) /\
  (exists mid, generate_zpl_label fromisoformat astimezone now rx st pn created =
               "^XA" ++ mid ++ "^XZ").
Proof.
  rewrite generate_zpl_label_core. split.
  - eexists. split; [reflexivity|]. intros ->. reflexivity.
  - apply label_core_shape.
Qed.

(** ** C9: determinism *)

(** C9 (as stated) fails: "0001-01-01T00:00:00+14:00" is accepted by
    fromisoformat, but [astimezone] overflows when it goes to UTC (before
    year 1), so the label shows the current time and two calls at
    different times differ. *)
Lemma parseable_created_uses_clock :
  ~ (forall now1 now2 rx st pn created,
       fromisoformat_model (replace_Z created) <> None ->
       generate_zpl_label fromisoformat_model (astimezone_model 0) now1 rx st pn created =
       generate_zpl_label fromisoformat_model (astimezone_model 0) now2 rx st pn created).
Proof.
  intros H.
  specialize (H (mk_dt 2026 10 16 9 0 0 None) (mk_dt 2026 10 16 9 1 0 None)
                "2468012" "157" (Some "J") "0001-01-01T00:00:00+14:00").
  assert (Hp : fromisoformat_model (replace_Z "0001-01-01T00:00:00+14:00") <> None)
    by (vm_compute; discriminate).
  specialize (H Hp). vm_compute in H. discriminate H.
Qed.

(** C9 (amended): when created_at both parses and converts to local time,
    the label does not depend on the current time: two calls with the same
    fields give the same text. *)
Theorem label_deterministic (fromisoformat : string -> option datetime)
    (astimezone : datetime -> option datetime) (now1 now2 : datetime)
    (rx st : string) (pn : option string) (created s : string)
    (Hparse : parse_created fromisoformat astimezone created = Some s) :
  generate_zpl_label fromisoformat astimezone now1 rx st pn created =
  generate_zpl_label fromisoformat astimezone now2 rx st pn created.
Proof.
  rewrite !generate_zpl_label_core, Hparse. reflexivity.
Qed.

(** ** C10: console mode *)

Lemma handle_requests_console (fromisoformat : string -> option datetime)
    (astimezone : datetime -> option datetime) (send : string -> option bool)
    (port : Z) (sid : string) (now : datetime) (reqs : list snapshot) (t : db) :
  handle_requests fromisoformat astimezone send "" port sid now reqs t =
  (console_effects fromisoformat astimezone sid now reqs,
   mark_all_printed (map s_id reqs) t).
Proof.
  revert t. induction reqs as [|req reqs IH]; intros t; simpl; [reflexivity|].
  rewrite IH. reflexivity.
Qed.

Lemma mark_printed_in (rid : string) (t : db) (r : row) :
  In r (snd (mark_printed rid t)) ->
  (id r = rid /\ row_status r = printed) \/ (id r <> rid /\ In r t).
Proof.
  rewrite mark_printed_map. intros Hr. apply in_map_iff in Hr as [r0 [<- Hr0]].
  unfold set_printed. destruct (String.eqb (id r0) rid) eqn:E.
  - left. apply String.eqb_eq in E. simpl. auto.
  - right. apply String.eqb_neq in E. auto.
Qed.

Lemma mark_all_printed_in (ids : list string) (t : db) (r : row) :
  In r (mark_all_printed ids t) ->
  (In (id r) ids /\ row_status r = printed) \/ (~ In (id r) ids /\ In r t).
Proof.
  unfold mark_all_printed. revert t.
  induction ids as [|rid ids IH]; intros t Hr; simpl in *.
  - right. auto.
  - destruct (IH _ Hr) as [[Hin Hs]|[Hnin Hr']]; [left; auto|].
    destruct (mark_printed_in rid t r Hr') as [[E Hs]|[Hne Hr0]].
    + left. auto.
    + right. split; [intros [E|E]; congruence|exact Hr0].
Qed.

(** C10: with no printer address (console mode) one polling round writes
    each claimed request's ZPL to the console and reports it printed, in
    order, without any socket write; afterwards every claimed request's row
    is 'printed'. *)
Theorem console_mode_marks_printed (fromisoformat : string -> option datetime)
    (astimezone : datetime -> option datetime) (STORES : list string)
    (send : string -> option bool) (port : Z) (sid srv_now : string) (now : datetime)
    (t t1 : db) (l : list snapshot)
    (Hclaim : get_pending STORES srv_now sid t = (Ok l, t1)) :
  fst (poll_once fromisoformat astimezone STORES send "" port sid srv_now now t) =
    console_effects fromisoformat astimezone sid now l /\
  (forall e, In e (fst (poll_once fromisoformat astimezone STORES send "" port sid srv_now now t)) ->
     match e with SendToPrinter _ _ _ => False | _ => True end) /\
  (forall r, In r (snd (poll_once fromisoformat astimezone STORES send "" port sid srv_now now t)) ->
     In (id r) (map s_id l) -> row_status r = printed).
Proof.
  unfold poll_once. rewrite Hclaim, handle_requests_console. simpl.
  split; [reflexivity|]. split.
  - intros e He. unfold console_effects in He. apply in_flat_map in He as [req [_ He]].
    simpl in He. destruct He as [<-|[<-|[]]]; exact I.
  - intros r Hr Hin.
    destruct (mark_all_printed_in _ _ _ Hr) as [[_ Hs]|[Hnin _]]; [exact Hs|contradiction].
Qed.

(** * Witnesses: the theorems with hypotheses applied to concrete inputs *)

Lemma get_pending_claims_witness :
  mem "157" sample_stores = true /\ NoDup (map id sample_db) /\
  ((exists rows,
     Permutation rows (filter (is_pending_for "157") sample_db) /\
     Sorted created_le rows /\
     get_pending sample_stores "2026-10-16T12:01:00+00:00" "157" sample_db =
       (Ok (map to_snapshot rows),
        map (fun r => if is_pending_for "157" r
                      then claim_row "2026-10-16T12:01:00+00:00" r else r) sample_db)) /\
   (filter (is_pending_for "157") sample_db = [] ->
    get_pending sample_stores "2026-10-16T12:01:00+00:00" "157" sample_db = (Ok [], sample_db))).
Proof.
  split; [reflexivity|]. split; [exact sample_db_ids|].
  apply get_pending_claims; [reflexivity|exact sample_db_ids].
Defined.

Lemma status_changes_witness :
  NoDup (map id sample_db) /\
  (forall i r, nth_error sample_db i = Some r ->
     exists r', nth_error (apply_op sample_stores (MarkPrintFailed "r4") sample_db) i = Some r' /\
                row_change sample_stores (MarkPrintFailed "r4") r r') /\
  (forall i r', nth_error sample_db i = None ->
     nth_error (apply_op sample_stores (MarkPrintFailed "r4") sample_db) i = Some r' ->
     row_status r' = pending).
Proof.
  split; [exact sample_db_ids|].
  apply status_changes. exact sample_db_ids.
Defined.


Lemma claim_twice_disjoint_witness :
  exists l1 t1 l2 t2,
    get_pending sample_stores "2026-10-16T12:01:00+00:00" "157" sample_db = (Ok l1, t1) /\
    get_pending sample_stores "2026-10-16T12:01:05+00:00" "157" t1 = (Ok l2, t2) /\
    map s_id l1 = ["r1"; "r2"] /\
    (forall x, In x (map s_id l1) -> ~ In x (map s_id l2)).
Proof.
  do 4 eexists. split; [reflexivity|]. split; [reflexivity|].
  split; [reflexivity|].
  eapply (claim_twice_disjoint sample_stores "2026-10-16T12:01:00+00:00"
           "2026-10-16T12:01:05+00:00" "157" sample_db); reflexivity.
Defined.

Lemma label_deterministic_witness :
  parse_created fromisoformat_model (astimezone_model 0)
    "2026-10-16T12:05:07Z" = Some "10/16/2026 12:05 PM" /\
  generate_zpl_label fromisoformat_model (astimezone_model 0)
    (mk_dt 2026 10 16 12 6 0 None) "2468012" "157" (Some "J") "2026-10-16T12:05:07Z" =
  generate_zpl_label fromisoformat_model (astimezone_model 0)
    (mk_dt 2027 1 1 8 0 0 None) "2468012" "157" (Some "J") "2026-10-16T12:05:07Z".
Proof.
  split; [vm_compute; reflexivity|].
  apply (label_deterministic _ _ _ _ _ _ _ _ "10/16/2026 12:05 PM").
  vm_compute. reflexivity.
Defined.

Lemma console_mode_marks_printed_witness :
  exists l t1,
    get_pending sample_stores "2026-10-16T12:01:00+00:00" "157" sample_db = (Ok l, t1) /\
    map s_id l = ["r1"; "r2"] /\
    (fst (poll_once fromisoformat_model (astimezone_model 0) sample_stores (fun _ => None)
                    "" 9100 "157" "2026-10-16T12:01:00+00:00" (mk_dt 2026 10 16 8 1 0 None)
                    sample_db) =
       console_effects fromisoformat_model (astimezone_model 0) "157"
                       (mk_dt 2026 10 16 8 1 0 None) l /\
     (forall e, In e (fst (poll_once fromisoformat_model (astimezone_model 0) sample_stores
                     (fun _ => None) "" 9100 "157" "2026-10-16T12:01:00+00:00"
                     (mk_dt 2026 10 16 8 1 0 None) sample_db)) ->
        match e with SendToPrinter _ _ _ => False | _ => True end) /\
     (forall r, In r (snd (poll_once fromisoformat_model (astimezone_model 0) sample_stores
                     (fun _ => None) "" 9100 "157" "2026-10-16T12:01:00+00:00"
                     (mk_dt 2026 10 16 8 1 0 None) sample_db)) ->
        In (id r) (map s_id l) -> row_status r = printed)).
Proof.
  do 2 eexists. split; [reflexivity|]. split; [reflexivity|].
  eapply console_mode_marks_printed. reflexivity.
Defined.

(** * Further properties of the code *)

(** ** The request table *)

Lemma map_ids_same (f : row -> row) (t : db) :
  (forall r, id (f r) = id r) -> map id (map f t) = map id t.
Proof. intros H. rewrite map_map. apply map_ext. exact H. Qed.

(** Every handler keeps the ids of the table distinct (the PRIMARY KEY):
    the UPDATEs never change an id and submit refuses (500) an id that is
    already present. *)
Theorem apply_op_keeps_ids_distinct (STORES : list string) (o : op) (t : db)
    (Hpk : NoDup (map id t)) :
  NoDup (map id (apply_op STORES o t)).
Proof.
  destruct o as [rid now rx store patient|now sid|rid|rid]; simpl.
  - unfold submit_refill.
    destruct (validate_rx_number rx), (validate_store_id STORES store); simpl; try exact Hpk.
    destruct (mem rid (map id t)) eqn:E; simpl; [exact Hpk|].
    rewrite map_app. simpl. apply NoDup_app; [exact Hpk|repeat constructor; simpl; tauto|].
    intros x Hx [<-|[]]. apply mem_In in Hx. congruence.
  - unfold get_pending. destruct (negb (mem sid STORES)); simpl; [exact Hpk|].
    destruct (sort_by_created _) as [|r0 l0]; simpl; [exact Hpk|].
    unfold set_printing. rewrite map_ids_same; [exact Hpk|].
    intros r. destruct (mem _ _); reflexivity.
  - rewrite map_ids_same; [exact Hpk|]. intros r. destruct (String.eqb (id r) rid); reflexivity.
  - rewrite map_ids_same; [exact Hpk|]. intros r. destruct (String.eqb (id r) rid); reflexivity.
Qed.

Lemma apply_op_keeps_ids_distinct_witness :
  NoDup (map id sample_db) /\
  NoDup (map id (apply_op sample_stores
                   (Submit "r1" "2026-10-16T12:02:00+00:00" "2468012" "157" "K") sample_db)).
Proof.
  split; [exact sample_db_ids|]. apply apply_op_keeps_ids_distinct. exact sample_db_ids.
Defined.

Lemma Forall_map_ok (f : row -> row) (t : db) :
  (forall r, row_ok r -> row_ok (f r)) -> table_ok t -> table_ok (map f t).
Proof.
  intros Hf Ht. unfold table_ok. apply Forall_map. eapply Forall_impl; [exact Hf|exact Ht].
Qed.

(** Every handler keeps printed_at consistent with the status: NULL on
    each pending row, set on each printing row. *)
Theorem apply_op_keeps_printed_at (STORES : list string) (o : op) (t : db)
    (Hok : table_ok t) :
  table_ok (apply_op STORES o t).
Proof.
  destruct o as [rid now rx store patient|now sid|rid|rid]; simpl.
  - unfold submit_refill.
    destruct (validate_rx_number rx), (validate_store_id STORES store); simpl; try exact Hok.
    destruct (mem rid (map id t)); simpl; [exact Hok|].
    apply Forall_app. split; [exact Hok|]. repeat constructor.
  - unfold get_pending. destruct (negb (mem sid STORES)); simpl; [exact Hok|].
    destruct (sort_by_created _) as [|r0 l0]; simpl; [exact Hok|].
    apply Forall_map_ok; [|exact Hok]. intros r Hr.
    destruct (mem _ _); [unfold row_ok; simpl; discriminate|exact Hr].
  - apply Forall_map_ok; [|exact Hok]. intros r Hr.
    destruct (String.eqb (id r) rid); [exact I|exact Hr].
  - apply Forall_map_ok; [|exact Hok]. intros r Hr.
    destruct (String.eqb (id r) rid); [reflexivity|exact Hr].
Qed.

Lemma sample_db_ok : table_ok sample_db.
Proof. repeat constructor; unfold row_ok; simpl; try reflexivity; discriminate. Qed.

Lemma apply_op_keeps_printed_at_witness :
  table_ok sample_db /\
  table_ok (apply_op sample_stores (Claim "2026-10-16T12:01:00+00:00" "157") sample_db).
Proof.
  split; [exact sample_db_ok|]. apply apply_op_keeps_printed_at. exact sample_db_ok.
Defined.

(** ** Claiming: [get_pending] *)

Lemma get_pending_known (STORES : list string) (now sid : string) (t : db)
    (Hknown : mem sid STORES = true) :
  get_pending STORES now sid t =
  (Ok (map to_snapshot (sort_by_created (filter (is_pending_for sid) t))),
   set_printing now (map id (sort_by_created (filter (is_pending_for sid) t))) t).
Proof.
  unfold get_pending. rewrite Hknown. simpl.
  destruct (sort_by_created (filter (is_pending_for sid) t)) as [|r0 l0]; [|reflexivity].
  simpl. f_equal. unfold set_printing. simpl.
  transitivity (map (fun r : row => r) t); [symmetry; apply map_id|reflexivity].
Qed.

Lemma get_pending_unknown (STORES : list string) (now sid : string) (t : db)
    (Hunknown : mem sid STORES = false) :
  get_pending STORES now sid t = (HttpError 404%Z, t).
Proof. unfold get_pending. rewrite Hunknown. reflexivity. Qed.

Lemma NoDup_ids_filter (keep : row -> bool) (t : db) :
  NoDup (map id t) -> NoDup (map id (filter keep t)).
Proof.
  induction t as [|r t IH]; intros Hnd; simpl; [constructor|].
  apply NoDup_cons_iff in Hnd as [Hnin Hnd].
  destruct (keep r); simpl; [|exact (IH Hnd)].
  apply NoDup_cons; [|exact (IH Hnd)].
  rewrite in_map_iff. intros [r' [E Hr']]. apply filter_In in Hr' as [Hr' _].
  apply Hnin. rewrite <- E. apply in_map. exact Hr'.
Qed.

Lemma get_pending_nodup (STORES : list string) (now sid : string)
    (t t1 : db) (l : list snapshot)
    (Hpk : NoDup (map id t)) (Hclaim : get_pending STORES now sid t = (Ok l, t1)) :
  NoDup (map s_id l).
Proof.
  destruct (mem sid STORES) eqn:Em;
    [|rewrite get_pending_unknown in Hclaim by exact Em; discriminate].
  rewrite get_pending_known in Hclaim by exact Em.
  injection Hclaim as <- _. rewrite map_map. simpl.
  apply (Permutation_NoDup (Permutation_map id (Permutation_sym
           (sort_by_created_perm (filter (is_pending_for sid) t))))).
  apply NoDup_ids_filter. exact Hpk.
Qed.

(** [get_pending] hands out each id at most once, and only requests of the
    store asked for. *)
Theorem get_pending_distinct_same_store (STORES : list string) (now sid : string)
    (t t1 : db) (l : list snapshot)
    (Hpk : NoDup (map id t)) (Hclaim : get_pending STORES now sid t = (Ok l, t1)) :
  NoDup (map s_id l) /\ Forall (fun s => s_store_id s = sid) l.
Proof.
  destruct (mem sid STORES) eqn:Em;
    [|rewrite get_pending_unknown in Hclaim by exact Em; discriminate].
  rewrite get_pending_known in Hclaim by exact Em.
  injection Hclaim as <- _.
  pose proof (sort_by_created_perm (filter (is_pending_for sid) t)) as Hp.
  split.
  - rewrite map_map. simpl.
    apply (Permutation_NoDup (Permutation_map id (Permutation_sym Hp))).
    apply NoDup_ids_filter. exact Hpk.
  - apply Forall_map. apply Forall_forall. intros r Hr.
    apply (Permutation_in _ Hp), filter_In in Hr as [_ Hs].
    unfold is_pending_for in Hs. apply andb_prop in Hs as [Hs _].
    apply String.eqb_eq in Hs. exact Hs.
Qed.

Lemma get_pending_distinct_same_store_witness :
  exists l t1,
    NoDup (map id sample_db) /\
    get_pending sample_stores "2026-10-16T12:01:00+00:00" "157" sample_db = (Ok l, t1) /\
    map s_id l = ["r1"; "r2"] /\
    NoDup (map s_id l) /\ Forall (fun s => s_store_id s = "157") l.
Proof.
  do 2 eexists. split; [exact sample_db_ids|]. split; [reflexivity|].
  split; [reflexivity|].
  eapply (get_pending_distinct_same_store sample_stores "2026-10-16T12:01:00+00:00" "157"
            sample_db); [exact sample_db_ids|reflexivity].
Defined.

Lemma in_get_pending_known (STORES : list string) (now sid : string) (t : db) (r : row)
    (Hknown : mem sid STORES = true) (Hr : In r t) (Hp : is_pending_for sid r = true) :
  In (to_snapshot r) (match fst (get_pending STORES now sid t) with
                      | Ok l => l | HttpError _ => [] end).
Proof.
  rewrite get_pending_known by exact Hknown. simpl.
  apply in_map. apply (Permutation_in _ (Permutation_sym (sort_by_created_perm _))).
  apply filter_In. auto.
Qed.

Lemma get_pending_fst_known (STORES : list string) (now sid : string) (t : db)
    (Hknown : mem sid STORES = true) :
  exists l t1, get_pending STORES now sid t = (Ok l, t1).
Proof. rewrite get_pending_known by exact Hknown. eauto. Qed.

(** ** Submitting, then claiming *)

(** An accepted submission is handed out by the next claim for its store:
    [get_pending] on the (stripped) store id returns the new request, with
    the stripped rx number and patient name and the submission time. *)
Theorem submit_then_claim (STORES : list string) (rid now rx store patient : string)
    (t t1 : db) (rid' : string) (now2 : string)
    (Hsub : submit_refill STORES rid now rx store patient t = (Ok rid', t1)) :
  rid' = rid /\
  exists l t2,
    get_pending STORES now2 (py_strip store) t1 = (Ok l, t2) /\
    In (mk_snapshot rid (py_strip rx) (py_strip store) now (Some (py_strip patient))) l.
Proof.
  unfold submit_refill in Hsub.
  destruct (validate_rx_number rx) as [rx'|] eqn:Erx; [|discriminate].
  destruct (validate_store_id STORES store) as [st'|] eqn:Est; [|discriminate].
  destruct (mem rid (map id t)); [discriminate|].
  injection Hsub as <- <-. split; [reflexivity|].
  apply validate_rx_number_spec in Erx as [_ ->].
  apply validate_store_id_spec in Est as [Hin ->].
  assert (Hk : mem (py_strip store) STORES = true) by (apply mem_In; exact Hin).
  destruct (get_pending_fst_known STORES now2 (py_strip store)
              (t ++ [mk_row rid (py_strip rx) (py_strip store) pending now None
                            (Some (py_strip patient))])%list Hk) as [l [t2 E]].
  exists l, t2. split; [exact E|].
  pose proof (in_get_pending_known STORES now2 (py_strip store)
                (t ++ [mk_row rid (py_strip rx) (py_strip store) pending now None
                              (Some (py_strip patient))])%list
                (mk_row rid (py_strip rx) (py_strip store) pending now None
                        (Some (py_strip patient))) Hk) as H.
  rewrite E in H. apply H.
  - apply in_or_app. right. left. reflexivity.
  - unfold is_pending_for. simpl. rewrite String.eqb_refl. reflexivity.
Qed.

Lemma submit_then_claim_witness :
  submit_refill sample_stores "r9" "2026-10-16T12:02:00+00:00" " 2468012 " " 200" "  Kim "
    sample_db =
    (Ok "r9", (sample_db ++ [mk_row "r9" "2468012" "200" pending "2026-10-16T12:02:00+00:00"
                                  None (Some "Kim")])%list) /\
  ("r9" = "r9" /\
   exists l t2,
     get_pending sample_stores "2026-10-16T12:03:00+00:00" (py_strip " 200")
       (sample_db ++ [mk_row "r9" "2468012" "200" pending "2026-10-16T12:02:00+00:00"
                            None (Some "Kim")])%list = (Ok l, t2) /\
     In (mk_snapshot "r9" (py_strip " 2468012 ") (py_strip " 200") "2026-10-16T12:02:00+00:00"
                     (Some (py_strip "  Kim "))) l).
Proof.
  split; [vm_compute; reflexivity|].
  apply (submit_then_claim sample_stores "r9" "2026-10-16T12:02:00+00:00" " 2468012 " " 200"
           "  Kim " sample_db).
  vm_compute. reflexivity.
Defined.

(** ** Reports: [mark_printed] and [mark_print_error] *)

Lemma mark_print_error_map (rid : string) (t : db) :
  snd (mark_print_error rid t) = map (reset_row rid) t.
Proof. reflexivity. Qed.

Lemma map_unknown_id (f : row -> row) (rid : string) (t : db) :
  (forall r, id r <> rid -> f r = r) -> ~ In rid (map id t) -> map f t = t.
Proof.
  intros Hf Hn. transitivity (map (fun r : row => r) t); [|apply map_id].
  apply map_ext_in. intros r Hr. apply Hf. intros E. apply Hn. rewrite <- E.
  apply in_map. exact Hr.
Qed.

(** A report for an id the table does not hold changes nothing and is
    still answered [{"success": true}]: neither handler checks that the UPDATE
    matched a row. *)
Theorem report_unknown_id (rid : string) (t : db) (Hnone : ~ In rid (map id t)) :
  mark_printed rid t = (Ok true, t) /\ mark_print_error rid t = (Ok true, t).
Proof.
  split.
  - unfold mark_printed. f_equal. apply (map_unknown_id _ rid); [|exact Hnone].
    intros r Hr. apply String.eqb_neq in Hr. rewrite Hr. reflexivity.
  - unfold mark_print_error. f_equal. apply (map_unknown_id _ rid); [|exact Hnone].
    intros r Hr. apply String.eqb_neq in Hr. rewrite Hr. reflexivity.
Qed.

Lemma report_unknown_id_witness :
  ~ In "r9" (map id sample_db) /\
  mark_printed "r9" sample_db = (Ok true, sample_db) /\
  mark_print_error "r9" sample_db = (Ok true, sample_db).
Proof.
  assert (H : ~ In "r9" (map id sample_db)) by (simpl; intuition discriminate).
  split; [exact H|]. apply report_unknown_id. exact H.
Defined.

(** A failed print puts the request back in the queue: after
    [mark_print_error] on the id of a row of a known store, the next
    [get_pending] for that store returns the id again, whatever the row's
    status was. *)
Theorem print_error_then_claimable (STORES : list string) (now : string) (t : db) (r : row)
    (Hr : In r t) (Hknown : mem (store_id r) STORES = true) :
  exists l t2,
    get_pending STORES now (store_id r) (snd (mark_print_error (id r) t)) = (Ok l, t2) /\
    In (id r) (map s_id l).
Proof.
  destruct (get_pending_fst_known STORES now (store_id r)
              (snd (mark_print_error (id r) t)) Hknown) as [l [t2 E]].
  exists l, t2. split; [exact E|].
  pose proof (in_get_pending_known STORES now (store_id r) (snd (mark_print_error (id r) t))
                (reset_row (id r) r) Hknown) as H.
  rewrite E in H.
  assert (Hid : id r = s_id (to_snapshot (reset_row (id r) r))).
  { unfold reset_row. rewrite String.eqb_refl. reflexivity. }
  rewrite Hid at 1. apply in_map. apply H.
  - rewrite mark_print_error_map. apply in_map. exact Hr.
  - unfold is_pending_for, reset_row. rewrite String.eqb_refl. simpl.
    rewrite String.eqb_refl. reflexivity.
Qed.

Lemma print_error_then_claimable_witness :
  In sample_r4 sample_db /\ mem (store_id sample_r4) sample_stores = true /\
  exists l t2,
    get_pending sample_stores "2026-10-16T12:01:00+00:00" (store_id sample_r4)
      (snd (mark_print_error (id sample_r4) sample_db)) = (Ok l, t2) /\
    In (id sample_r4) (map s_id l).
Proof.
  split; [simpl; tauto|]. split; [reflexivity|].
  apply print_error_then_claimable; [simpl; tauto|reflexivity].
Defined.

(** ** A printed request stays printed *)

Lemma sorted_pending_ids (sid : string) (t : db) (x : string) :
  In x (map id (sort_by_created (filter (is_pending_for sid) t))) ->
  exists r, In r t /\ id r = x /\ row_status r = pending.
Proof.
  intros H. apply in_map_iff in H as [r [E Hr]].
  apply (Permutation_in _ (sort_by_created_perm _)), filter_In in Hr as [Hr Hp].
  exists r. split; [exact Hr|]. split; [exact E|].
  unfold is_pending_for in Hp. apply andb_prop in Hp as [_ Hp].
  destruct (row_status r); [reflexivity|discriminate|discriminate].
Qed.

Lemma printed_row_in_step (STORES : list string) (x : string) (o : op) (t : db)
    (Hinv : printed_row_in x t) (Ho : o <> MarkPrintFailed x) :
  printed_row_in x (apply_op STORES o t).
Proof.
  destruct Hinv as [[r0 [Hr0 Hx0]] Hall].
  destruct o as [rid now rx store patient|now sid|rid|rid]; simpl.
  - unfold submit_refill.
    destruct (validate_rx_number rx), (validate_store_id STORES store);
      try (split; [eauto|exact Hall]).
    destruct (mem rid (map id t)) eqn:Em; simpl; [split; [eauto|exact Hall]|].
    split; [exists r0; split; [apply in_or_app; left|]; assumption|].
    intros r Hr Hx. apply in_app_or in Hr as [Hr|[<-|[]]]; [exact (Hall r Hr Hx)|].
    simpl in Hx. subst rid.
    assert (Hin : mem x (map id t) = true) by (apply mem_In; rewrite <- Hx0; apply in_map; exact Hr0).
    congruence.
  - destruct (mem sid STORES) eqn:Ek;
      [|rewrite get_pending_unknown by exact Ek; split; [eauto|exact Hall]].
    rewrite get_pending_known by exact Ek. simpl.
    assert (Hkeep : forall r, In r t -> id r = x ->
              mem (id r) (map id (sort_by_created (filter (is_pending_for sid) t))) = false).
    { intros r Hr Hx.
      destruct (mem (id r) (map id (sort_by_created (filter (is_pending_for sid) t)))) eqn:Em;
        [|reflexivity].
      apply mem_In, sorted_pending_ids in Em as [r' [Hr' [E Hs]]].
      rewrite (Hall r' Hr' (eq_trans E Hx)) in Hs. discriminate. }
    unfold set_printing. split.
    + exists r0. split; [|exact Hx0]. apply in_map_iff. exists r0.
      rewrite (Hkeep r0 Hr0 Hx0). auto.
    + intros r Hr Hx. apply in_map_iff in Hr as [r' [<- Hr']].
      destruct (mem (id r') _) eqn:Em; [|exact (Hall r' Hr' Hx)].
      simpl in Hx. rewrite (Hkeep r' Hr' Hx) in Em. discriminate.
  - change (printed_row_in x (map (set_printed rid) t)). split.
    + exists (set_printed rid r0). split; [apply in_map; exact Hr0|].
      unfold set_printed. destruct (String.eqb (id r0) rid); exact Hx0.
    + intros r Hr Hx. apply in_map_iff in Hr as [r' [<- Hr']].
      unfold set_printed in *. destruct (String.eqb (id r') rid); [reflexivity|].
      exact (Hall r' Hr' Hx).
  - change (printed_row_in x (map (reset_row rid) t)).
    assert (Hne : rid <> x) by (intros <-; apply Ho; reflexivity).
    assert (Hfix : forall r, id r = x -> reset_row rid r = r).
    { intros r Hx. unfold reset_row. destruct (String.eqb (id r) rid) eqn:E; [|reflexivity].
      apply String.eqb_eq in E. congruence. }
    split.
    + exists r0. split; [|exact Hx0]. rewrite <- (Hfix r0 Hx0) at 1. apply in_map. exact Hr0.
    + intros r Hr Hx. apply in_map_iff in Hr as [r' [<- Hr']].
      unfold reset_row in *. destruct (String.eqb (id r') rid) eqn:E.
      * apply String.eqb_eq in E. simpl in Hx. congruence.
      * exact (Hall r' Hr' Hx).
Qed.

(** Once a request is printed, only a print-error report for its id brings
    it back: along any sequence of requests without [mark_print_error] on
    [x], the row [x] stays 'printed' (a new submission cannot reuse the id)
    and no claim hands it out. *)
Theorem printed_stays_printed (STORES : list string) (x : string) (ops : list op) (t : db)
    (Hinv : printed_row_in x t) (Hops : forall o, In o ops -> o <> MarkPrintFailed x) :
  printed_row_in x (ops_run STORES ops t) /\
  (forall now sid l t', get_pending STORES now sid (ops_run STORES ops t) = (Ok l, t') ->
     ~ In x (map s_id l)).
Proof.
  assert (Hend : printed_row_in x (ops_run STORES ops t)).
  { unfold ops_run. revert t Hinv.
    induction ops as [|o ops IH]; intros t Hinv; simpl; [exact Hinv|].
    apply IH; [intros o' Ho'; apply Hops; right; exact Ho'|].
    apply printed_row_in_step; [exact Hinv|apply Hops; left; reflexivity]. }
  split; [exact Hend|].
  intros now sid l t' Hc Hx.
  destruct (get_pending_selected _ _ _ _ _ _ _ Hc Hx) as [r [Hr E]].
  apply filter_In in Hr as [Hr Hp].
  unfold is_pending_for in Hp. rewrite ((proj2 Hend) r Hr E) in Hp. simpl in Hp.
  rewrite andb_false_r in Hp. discriminate.
Qed.

Lemma printed_stays_printed_witness :
  printed_row_in "r4" sample_db /\
  (forall o, In o [Submit "r4" "2026-10-16T12:02:00+00:00" "2468012" "157" "K";
                   Claim "2026-10-16T12:03:00+00:00" "157"; MarkPrintFailed "r1"] ->
             o <> MarkPrintFailed "r4") /\
  (printed_row_in "r4" (ops_run sample_stores
      [Submit "r4" "2026-10-16T12:02:00+00:00" "2468012" "157" "K";
       Claim "2026-10-16T12:03:00+00:00" "157"; MarkPrintFailed "r1"] sample_db) /\
   (forall now sid l t', get_pending sample_stores now sid (ops_run sample_stores
      [Submit "r4" "2026-10-16T12:02:00+00:00" "2468012" "157" "K";
       Claim "2026-10-16T12:03:00+00:00" "157"; MarkPrintFailed "r1"] sample_db) = (Ok l, t') ->
     ~ In "r4" (map s_id l))).
Proof.
  assert (H1 : printed_row_in "r4" sample_db).
  { split.
    - exists sample_r4. split; [simpl; tauto|reflexivity].
    - intros r Hr Hx. simpl in Hr.
      destruct Hr as [<-|[<-|[<-|[<-|[]]]]]; simpl in Hx; try discriminate; reflexivity. }
  assert (H2 : forall o, In o [Submit "r4" "2026-10-16T12:02:00+00:00" "2468012" "157" "K";
                   Claim "2026-10-16T12:03:00+00:00" "157"; MarkPrintFailed "r1"] ->
             o <> MarkPrintFailed "r4").
  { intros o Ho. simpl in Ho. destruct Ho as [<-|[<-|[<-|[]]]]; discriminate. }
  split; [exact H1|]. split; [exact H2|].
  apply printed_stays_printed; [exact H1|exact H2].
Defined.

(** ** print_agent.py: a polling round *)

(** A round with an unknown store id (the server answers 404 and
    [raise_for_status] raises; the agent only logs the error) or with
    nothing pending renders no label, writes nothing to the printer, sends
    no report, and leaves the table unchanged. *)
Theorem poll_idle (fromisoformat : string -> option datetime)
    (astimezone : datetime -> option datetime) (STORES : list string)
    (send : string -> option bool) (printer_ip : string) (port : Z) (sid srv_now : string)
    (now : datetime) (t : db)
    (Hidle : mem sid STORES = false \/ filter (is_pending_for sid) t = []) :
  poll_once fromisoformat astimezone STORES send printer_ip port sid srv_now now t = ([], t).
Proof.
  unfold poll_once.
  destruct (mem sid STORES) eqn:Ek.
  - destruct Hidle as [H|H]; [discriminate|].
    rewrite get_pending_known by exact Ek. rewrite H. simpl.
    f_equal. transitivity (map (fun r : row => r) t); [reflexivity|apply map_id].
  - rewrite get_pending_unknown by exact Ek. reflexivity.
Qed.

Lemma poll_idle_witness :
  (mem "999" sample_stores = false \/ filter (is_pending_for "999") sample_db = []) /\
  poll_once fromisoformat_model (astimezone_model 0) sample_stores (fun _ => Some true)
    "10.0.0.5" 9100 "999" "2026-10-16T12:01:00+00:00" (mk_dt 2026 10 16 8 1 0 None)
    sample_db = ([], sample_db).
Proof.
  assert (H : mem "999" sample_stores = false \/ filter (is_pending_for "999") sample_db = [])
    by (left; reflexivity).
  split; [exact H|]. apply poll_idle. exact H.
Defined.

Lemma report_row_id (b : bool) (rid : string) (r : row) : id (report_row b rid r) = id r.
Proof.
  unfold report_row, set_printed, reset_row.
  destruct b, (String.eqb (id r) rid); reflexivity.
Qed.

Lemma report_row_other (b : bool) (rid : string) (r : row) :
  String.eqb (id r) rid = false -> report_row b rid r = r.
Proof. intros E. unfold report_row, set_printed, reset_row. rewrite E. destruct b; reflexivity. Qed.

Lemma find_s_id_none (reqs : list snapshot) (x : string) :
  ~ In x (map s_id reqs) -> find (fun req => String.eqb (s_id req) x) reqs = None.
Proof.
  induction reqs as [|req reqs IH]; simpl; [reflexivity|].
  intros Hn. destruct (String.eqb (s_id req) x) eqn:E.
  - apply String.eqb_eq in E. tauto.
  - apply IH. tauto.
Qed.

Lemma handle_requests_printer (fromisoformat : string -> option datetime)
    (astimezone : datetime -> option datetime) (send : string -> bool)
    (printer_ip : string) (port : Z) (sid : string) (now : datetime)
    (reqs : list snapshot) (t : db)
    (Hip : printer_ip <> "") (Hport : (0 <= port <= 65535)%Z) (Hnd : NoDup (map s_id reqs)) :
  handle_requests fromisoformat astimezone (fun zpl => Some (send zpl))
    printer_ip port sid now reqs t =
  (printer_effects fromisoformat astimezone send printer_ip port sid now reqs,
   after_reports fromisoformat astimezone send sid now reqs t).
Proof.
  assert (Hip' : String.eqb printer_ip "" = false) by (apply String.eqb_neq; exact Hip).
  revert t. induction reqs as [|req reqs IH]; intros t.
  - simpl. f_equal. unfold after_reports. simpl.
    transitivity (map (fun r : row => r) t); [symmetry; apply map_id|reflexivity].
  - inversion Hnd as [|? ? Hnin Hnd']; subst.
    simpl handle_requests. rewrite Hip'. simpl negb. cbv iota beta.
    unfold send_to_printer at 1.
    replace ((0 <=? port)%Z && (port <=? 65535)%Z) with true
      by (symmetry; apply andb_true_iff; split; apply Z.leb_le; lia).
    cbv iota beta.
    fold (request_zpl fromisoformat astimezone sid now req).
    set (b := send (request_zpl fromisoformat astimezone sid now req)).
    assert (Ht : snd (if b then mark_printed (s_id req) t else mark_print_error (s_id req) t)
                 = map (report_row b (s_id req)) t)
      by (unfold report_row; destruct b; reflexivity).
    assert (Hrest : after_reports fromisoformat astimezone send sid now reqs
                      (map (report_row b (s_id req)) t) =
                    after_reports fromisoformat astimezone send sid now (req :: reqs) t).
    { unfold after_reports. rewrite map_map. apply map_ext. intros r. simpl.
      rewrite report_row_id.
      destruct (String.eqb (s_id req) (id r)) eqn:E.
      - apply String.eqb_eq in E. rewrite find_s_id_none by (rewrite <- E; exact Hnin).
        reflexivity.
      - rewrite report_row_other by (rewrite String.eqb_sym; exact E). reflexivity. }
    unfold printer_effects. cbn [flat_map app].
    change (send (request_zpl fromisoformat astimezone sid now req)) with b.
    fold (printer_effects fromisoformat astimezone send printer_ip port sid now reqs).
    rewrite <- Hrest, <- Ht.
    destruct b; cbv iota beta; rewrite (IH Hnd'); reflexivity.
Qed.

(** In printer mode, with a port in 0..65535 and socket writes that either
    succeed or raise an OSError ([send zpl] tells which), a round sends
    each claimed request's label to the printer and then reports it:
    printed when the socket write succeeded, a print error when it failed;
    each claimed row ends 'printed' or back at 'pending' accordingly, and
    no other row changes. *)
Theorem printer_mode_round (fromisoformat : string -> option datetime)
    (astimezone : datetime -> option datetime) (STORES : list string)
    (send : string -> bool) (printer_ip : string) (port : Z) (sid srv_now : string)
    (now : datetime) (t t1 : db) (l : list snapshot)
    (Hip : printer_ip <> "") (Hport : (0 <= port <= 65535)%Z) (Hpk : NoDup (map id t))
    (Hclaim : get_pending STORES srv_now sid t = (Ok l, t1)) :
  poll_once fromisoformat astimezone STORES (fun zpl => Some (send zpl))
    printer_ip port sid srv_now now t =
  (printer_effects fromisoformat astimezone send printer_ip port sid now l,
   after_reports fromisoformat astimezone send sid now l t1).
Proof.
  unfold poll_once. rewrite Hclaim.
  apply handle_requests_printer; [exact Hip|exact Hport|].
  exact (get_pending_nodup _ _ _ _ _ _ Hpk Hclaim).
Qed.

Lemma printer_mode_round_witness :
  exists l t1,
    "10.0.0.5" <> "" /\ (0 <= 9100 <= 65535)%Z /\ NoDup (map id sample_db) /\
    get_pending sample_stores "2026-10-16T12:01:00+00:00" "157" sample_db = (Ok l, t1) /\
    poll_once fromisoformat_model (astimezone_model 0) sample_stores
      (fun zpl => Some (Nat.eqb (String.length zpl) 0)) "10.0.0.5" 9100 "157"
      "2026-10-16T12:01:00+00:00" (mk_dt 2026 10 16 8 1 0 None) sample_db =
    (printer_effects fromisoformat_model (astimezone_model 0)
       (fun zpl => Nat.eqb (String.length zpl) 0) "10.0.0.5" 9100 "157"
       (mk_dt 2026 10 16 8 1 0 None) l,
     after_reports fromisoformat_model (astimezone_model 0)
       (fun zpl => Nat.eqb (String.length zpl) 0) "157" (mk_dt 2026 10 16 8 1 0 None) l t1).
Proof.
  do 2 eexists. split; [discriminate|]. split; [lia|]. split; [exact sample_db_ids|].
  split; [reflexivity|].
  eapply (printer_mode_round fromisoformat_model (astimezone_model 0) sample_stores
            (fun zpl => Nat.eqb (String.length zpl) 0) "10.0.0.5" 9100 "157"
            "2026-10-16T12:01:00+00:00" (mk_dt 2026 10 16 8 1 0 None) sample_db);
    [discriminate|lia|exact sample_db_ids|reflexivity].
Defined.

Lemma row_eta (r : row) :
  r = mk_row (id r) (rx_number r) (store_id r) (row_status r) (created_at r)
             (printed_at r) (patient_name r).
Proof. destruct r; reflexivity. Qed.

(** When the printer is unreachable (every socket write raises an OSError)
    and the port is in 0..65535, a round sends each claimed label, reports
    a print error for each, and leaves the table exactly as it was before
    the claim: every claimed request is pending again, with no
    printed_at. *)
Theorem failed_round_restores (fromisoformat : string -> option datetime)
    (astimezone : datetime -> option datetime) (STORES : list string)
    (printer_ip : string) (port : Z) (sid srv_now : string)
    (now : datetime) (t t1 : db) (l : list snapshot)
    (Hip : printer_ip <> "") (Hport : (0 <= port <= 65535)%Z)
    (Hpk : NoDup (map id t)) (Hok : table_ok t)
    (Hclaim : get_pending STORES srv_now sid t = (Ok l, t1)) :
  poll_once fromisoformat astimezone STORES (fun _ => Some false)
    printer_ip port sid srv_now now t =
  (flat_map (fun req => [SendToPrinter (request_zpl fromisoformat astimezone sid now req)
                                       printer_ip port;
                         PostPrintError (s_id req)]) l, t).
Proof.
  unfold poll_once. rewrite Hclaim.
  rewrite (handle_requests_printer fromisoformat astimezone (fun _ => false));
    [|exact Hip|exact Hport|exact (get_pending_nodup _ _ _ _ _ _ Hpk Hclaim)].
  f_equal.
  destruct (mem sid STORES) eqn:Em;
    [|rewrite get_pending_unknown in Hclaim by exact Em; discriminate].
  rewrite get_pending_known in Hclaim by exact Em.
  injection Hclaim as <- <-.
  set (S := sort_by_created (filter (is_pending_for sid) t)).
  unfold after_reports, set_printing. rewrite map_map.
  transitivity (map (fun r : row => r) t); [|apply map_id].
  apply map_ext_in. intros r Hr.
  destruct (mem (id r) (map id S)) eqn:Eid; simpl.
  - apply mem_In in Eid. pose proof Eid as Eid'.
    apply sorted_pending_ids in Eid' as [r' [Hr' [E Hs]]].
    assert (Er : r' = r) by exact (NoDup_map_inj id t r' r Hpk Hr' Hr E). subst r'.
    apply in_map_iff in Eid as [r1 [E1 Hr1]].
    destruct (find (fun req => String.eqb (s_id req) (id r)) (map to_snapshot S))
      as [req|] eqn:Ef.
    + apply find_some in Ef as [_ Ef]. apply String.eqb_eq in Ef.
      rewrite Ef. unfold reset_row. simpl. rewrite String.eqb_refl.
      pose proof (proj1 (Forall_forall _ _) Hok r Hr) as Hrok.
      unfold row_ok in Hrok. rewrite Hs in Hrok.
      rewrite <- Hs, <- Hrok. symmetry. apply row_eta.
    + exfalso. pose proof (find_none _ _ Ef (to_snapshot r1)) as Hn.
      simpl in Hn. rewrite E1, String.eqb_refl in Hn.
      assert (Hf : true = false) by (apply Hn, in_map, Hr1). discriminate.
  - destruct (find (fun req => String.eqb (s_id req) (id r)) (map to_snapshot S))
      as [req|] eqn:Ef; [|reflexivity].
    apply find_some in Ef as [Hreq Ef]. apply String.eqb_eq in Ef.
    exfalso. apply in_map_iff in Hreq as [r1 [<- Hr1]].
    assert (Hin : mem (id r) (map id S) = true)
      by (apply mem_In; simpl in Ef; rewrite <- Ef; apply in_map; exact Hr1).
    congruence.
Qed.

Lemma failed_round_restores_witness :
  exists l t1,
    "10.0.0.5" <> "" /\ (0 <= 9100 <= 65535)%Z /\ NoDup (map id sample_db) /\
    table_ok sample_db /\
    get_pending sample_stores "2026-10-16T12:01:00+00:00" "157" sample_db = (Ok l, t1) /\
    poll_once fromisoformat_model (astimezone_model 0) sample_stores (fun _ => Some false)
      "10.0.0.5" 9100 "157" "2026-10-16T12:01:00+00:00" (mk_dt 2026 10 16 8 1 0 None)
      sample_db =
    (flat_map (fun req => [SendToPrinter (request_zpl fromisoformat_model (astimezone_model 0)
                                            "157" (mk_dt 2026 10 16 8 1 0 None) req)
                                         "10.0.0.5" 9100;
                           PostPrintError (s_id req)]) l, sample_db).
Proof.
  do 2 eexists. split; [discriminate|]. split; [lia|]. split; [exact sample_db_ids|].
  split; [exact sample_db_ok|]. split; [reflexivity|].
  eapply (failed_round_restores fromisoformat_model (astimezone_model 0) sample_stores
            "10.0.0.5" 9100 "157" "2026-10-16T12:01:00+00:00" (mk_dt 2026 10 16 8 1 0 None)
            sample_db);
    [discriminate|lia|exact sample_db_ids|exact sample_db_ok|reflexivity].
Defined.

(** ** print_agent.py: a port out of range *)

(** In printer mode with a port outside 0..65535 (e.g. a store config's
    "printer_port" of 70000), a round that claimed requests writes nothing
    to the printer and sends no report: [connect] raises OverflowError,
    which [send_to_printer] does not catch, and the round ends.  The table
    stays as the claim left it, so every claimed row stays 'printing', and
    the next claim of the store returns none of them. *)
Theorem bad_port_round_stalls (fromisoformat : string -> option datetime)
    (astimezone : datetime -> option datetime) (STORES : list string)
    (send : string -> option bool) (printer_ip : string) (port : Z)
    (sid srv_now srv_now' : string) (now : datetime) (t t1 : db) (l : list snapshot)
    (Hip : printer_ip <> "") (Hport : ~ (0 <= port <= 65535)%Z)
    (Hclaim : get_pending STORES srv_now sid t = (Ok l, t1)) :
  poll_once fromisoformat astimezone STORES send printer_ip port sid srv_now now t = ([], t1) /\
  (forall r, In r t1 -> In (id r) (map s_id l) -> row_status r = printing) /\
  (forall x, In x (map s_id l) ->
     ~ In x (map s_id (match fst (get_pending STORES srv_now' sid t1) with
                       | Ok l' => l' | HttpError _ => [] end))).
Proof.
  assert (Hprinting : forall r, In r t1 -> In (id r) (map s_id l) -> row_status r = printing).
  { destruct (mem sid STORES) eqn:Em;
      [|rewrite get_pending_unknown in Hclaim by exact Em; discriminate].
    rewrite get_pending_known in Hclaim by exact Em.
    injection Hclaim as <- <-. intros r Hr Hin.
    rewrite map_map in Hin. change (fun x => s_id (to_snapshot x)) with id in Hin.
    unfold set_printing in Hr. apply in_map_iff in Hr as [r0 [<- _]].
    destruct (mem (id r0) _) eqn:E; [reflexivity|].
    exfalso. simpl in Hin. apply mem_In in Hin. congruence. }
  split; [|split; [exact Hprinting|]].
  - unfold poll_once. rewrite Hclaim. destruct l as [|req rest]; [reflexivity|].
    simpl handle_requests.
    replace (negb (String.eqb printer_ip "")) with true
      by (symmetry; apply negb_true_iff, String.eqb_neq; exact Hip).
    unfold send_to_printer.
    replace ((0 <=? port)%Z && (port <=? 65535)%Z) with false.
    + reflexivity.
    + symmetry. apply andb_false_iff.
      destruct (Z.leb_spec 0 port); [right; apply Z.leb_gt; lia|left; reflexivity].
  - intros x Hx Hx2.
    destruct (mem sid STORES) eqn:Em;
      [|rewrite get_pending_unknown in Hx2 by exact Em; contradiction].
    rewrite get_pending_known in Hx2 by exact Em. simpl in Hx2.
    rewrite map_map in Hx2. change (fun x => s_id (to_snapshot x)) with id in Hx2.
    apply sorted_pending_ids in Hx2 as [r [Hr [E Hs]]].
    rewrite (Hprinting r Hr) in Hs; [discriminate|]. rewrite E. exact Hx.
Qed.

Lemma bad_port_round_stalls_witness :
  exists l t1,
    "10.0.0.5" <> "" /\ ~ (0 <= 70000 <= 65535)%Z /\
    get_pending sample_stores "2026-10-16T12:01:00+00:00" "157" sample_db = (Ok l, t1) /\
    (poll_once fromisoformat_model (astimezone_model 0) sample_stores (fun _ => Some true)
       "10.0.0.5" 70000 "157" "2026-10-16T12:01:00+00:00" (mk_dt 2026 10 16 8 1 0 None)
       sample_db = ([], t1) /\
     (forall r, In r t1 -> In (id r) (map s_id l) -> row_status r = printing) /\
     (forall x, In x (map s_id l) ->
        ~ In x (map s_id (match fst (get_pending sample_stores "2026-10-16T12:02:00+00:00"
                                       "157" t1) with
                          | Ok l' => l' | HttpError _ => [] end)))).
Proof.
  do 2 eexists. split; [discriminate|]. split; [lia|]. split; [reflexivity|].
  eapply (bad_port_round_stalls fromisoformat_model (astimezone_model 0) sample_stores
            (fun _ => Some true) "10.0.0.5" 70000 "157" "2026-10-16T12:01:00+00:00"
            "2026-10-16T12:02:00+00:00" (mk_dt 2026 10 16 8 1 0 None) sample_db);
    [discriminate|lia|reflexivity].
Defined.

(** ** print_agent.py: the label shows the rx number twice *)

Lemma render_single (c : zpl_chunk) : render [c] = render_chunk c.
Proof. unfold render. simpl. apply sapp_nil_r. Qed.

(** Every label carries the rx number as text (the large "Rx# " line, ^FO at
    x 246) and as a Code 128 barcode (^BC at x 94), with the store line in
    between, whatever the clock or the created_at value. *)
Theorem label_shows_rx (fromisoformat : string -> option datetime)
    (astimezone : datetime -> option datetime) (now : datetime)
    (rx st : string) (pn : option string) (created : string) :
  exists a b c d,
    generate_zpl_label fromisoformat astimezone now rx st pn created =
    a ++ ("^FO246,20^A0R,50,50^FDRx# " ++ rx ++ "^FS") ++
    b ++ ("^FO190,20^A0R,20,20^FDStore: " ++ st ++ "^FS") ++
    c ++ ("^FO94,20^BY2,2,50^BCR,50,Y,N,N^FD" ++ rx ++ "^FS") ++ d.
Proof.
  rewrite generate_zpl_label_core.
  set (core := label_core rx st (patient_line_of pn)
                 (match parse_created fromisoformat astimezone created with
                  | Some s => s | None => strftime_label now end)).
  assert (Hsplit : core = (firstn 3 core ++ [nth 3 core (Raw "")] ++
                           firstn 3 (skipn 4 core) ++ [nth 7 core (Raw "")] ++
                           firstn 7 (skipn 8 core) ++ [nth 15 core (Raw "")] ++
                           skipn 16 core)%list) by reflexivity.
  exists (render (firstn 3 core)), (render (firstn 3 (skipn 4 core))),
    (render (firstn 7 (skipn 8 core))), (render (skipn 16 core)).
  rewrite Hsplit, !render_app, !render_single. reflexivity.
Qed.

(** ** print_qr_stickers.py: [main] *)

Lemma qr_loop_all_ok (send : nat -> bool) (zpl ip : string) (port count : Z) (n i : nat) :
  (forall j, (i <= j < i + n)%nat -> send j = true) ->
  exists effs pre,
    qr_loop send zpl ip port count i n = (effs, QrReturn) /\
    qr_sends effs = n /\ effs = (pre ++ [QrOut "Done!"])%list /\
    (forall e, In e effs -> is_qr_send e = true -> e = QrSend zpl ip port).
Proof.
  revert i. induction n as [|n IH]; intros i Hok; simpl.
  - exists [QrOut "Done!"], []. split; [reflexivity|]. split; [reflexivity|].
    split; [reflexivity|]. intros e [<-|[]]. discriminate.
  - rewrite (Hok i) by lia.
    destruct (IH (S i)) as [effs [pre [E [Hn [Hpre Hs]]]]];
      [intros j Hj; apply Hok; lia|].
    rewrite E.
    eexists (QrSend zpl ip port :: QrOut _ :: effs)%list,
      (QrSend zpl ip port :: QrOut _ :: pre)%list.
    split; [reflexivity|]. split; [unfold qr_sends in *; simpl; rewrite Hn; reflexivity|].
    split; [rewrite Hpre; reflexivity|].
    intros e [<-|[<-|He]] Hse; [reflexivity|discriminate|exact (Hs e He Hse)].
Qed.

Lemma qr_loop_fail (send : nat -> bool) (zpl ip : string) (port count : Z) (k n i : nat) :
  (k < n)%nat -> (forall j, (i <= j < i + k)%nat -> send j = true) -> send (i + k)%nat = false ->
  exists effs,
    qr_loop send zpl ip port count i n = (effs, QrExit 1) /\
    qr_sends effs = S k /\ ~ In (QrOut "Done!") effs /\
    (forall e, In e effs -> is_qr_send e = true -> e = QrSend zpl ip port).
Proof.
  revert i n. induction k as [|k IH]; intros i n Hk Hok Hfail.
  - destruct n as [|n]; [lia|]. simpl. rewrite Nat.add_0_r in Hfail. rewrite Hfail.
    eexists. split; [reflexivity|]. split; [reflexivity|]. split.
    + intros [E|[E|[]]]; [discriminate|].
      injection E. intros. discriminate.
    + intros e [<-|[<-|[]]] Hse; [reflexivity|discriminate].
  - destruct n as [|n]; [lia|]. simpl. rewrite (Hok i) by lia.
    destruct (IH (S i) n) as [effs [E [Hn [Hd Hs]]]];
      [lia|intros j Hj; apply Hok; lia|rewrite <- Hfail; f_equal; lia|].
    rewrite E. eexists. split; [reflexivity|].
    split; [unfold qr_sends in *; simpl; rewrite Hn; reflexivity|]. split.
    + intros [E1|[E1|He]]; [discriminate| |exact (Hd He)].
      injection E1. intros. discriminate.
    + intros e [<-|[<-|He]] Hse; [reflexivity|discriminate|exact (Hs e He Hse)].
Qed.

(** With a printer, [main] sends the same sticker ZPL to the given address
    once per sticker: when every send succeeds it makes [count] sends
    (none for a count of 0 or less), prints "Done!" last and returns; when
    send number k+1 fails it stops there with exit code 1, after k+1 sends
    and without "Done!". *)
Theorem qr_main_sends (send : nat -> bool) (count : Z) (printer : string) (port : Z)
    (Hp : printer <> "") :
  ((forall j, (j < Z.to_nat count)%nat -> send j = true) ->
   exists effs pre,
     qr_main send count printer port = (effs, QrReturn) /\
     qr_sends effs = Z.to_nat count /\ effs = (pre ++ [QrOut "Done!"])%list /\
     (forall e, In e effs -> is_qr_send e = true ->
        e = QrSend generate_qr_sticker_zpl printer port)) /\
  (forall k, (k < Z.to_nat count)%nat -> (forall j, (j < k)%nat -> send j = true) ->
   send k = false ->
   exists effs,
     qr_main send count printer port = (effs, QrExit 1) /\
     qr_sends effs = S k /\ ~ In (QrOut "Done!") effs /\
     (forall e, In e effs -> is_qr_send e = true ->
        e = QrSend generate_qr_sticker_zpl printer port)).
Proof.
  unfold qr_main. apply String.eqb_neq in Hp. rewrite Hp. split.
  - intros Hok.
    destruct (qr_loop_all_ok send generate_qr_sticker_zpl printer port count
                (Z.to_nat count) 0) as [effs [pre [E [Hn [Hpre Hs]]]]];
      [intros j Hj; apply Hok; lia|].
    rewrite E. eexists (QrOut _ :: effs)%list, (QrOut _ :: pre)%list.
    split; [reflexivity|]. split; [exact Hn|]. split; [rewrite Hpre; reflexivity|].
    intros e [<-|He] Hse; [discriminate|exact (Hs e He Hse)].
  - intros k Hk Hok Hfail.
    destruct (qr_loop_fail send generate_qr_sticker_zpl printer port count k
                (Z.to_nat count) 0) as [effs [E [Hn [Hd Hs]]]];
      [exact Hk|intros j Hj; apply Hok; lia|exact Hfail|].
    rewrite E. eexists. split; [reflexivity|]. split; [exact Hn|]. split.
    + intros [E1|He]; [|exact (Hd He)].
      injection E1. intros. discriminate.
    + intros e [<-|He] Hse; [discriminate|exact (Hs e He Hse)].
Qed.

Lemma qr_main_sends_witness :
  "10.0.0.7" <> "" /\
  ((forall j, (j < Z.to_nat 3)%nat -> Nat.ltb j 1 = true) ->
   exists effs pre,
     qr_main (fun j => Nat.ltb j 1) 3 "10.0.0.7" 9100 = (effs, QrReturn) /\
     qr_sends effs = Z.to_nat 3 /\ effs = (pre ++ [QrOut "Done!"])%list /\
     (forall e, In e effs -> is_qr_send e = true ->
        e = QrSend generate_qr_sticker_zpl "10.0.0.7" 9100)) /\
  (forall k, (k < Z.to_nat 3)%nat -> (forall j, (j < k)%nat -> Nat.ltb j 1 = true) ->
   Nat.ltb k 1 = false ->
   exists effs,
     qr_main (fun j => Nat.ltb j 1) 3 "10.0.0.7" 9100 = (effs, QrExit 1) /\
     qr_sends effs = S k /\ ~ In (QrOut "Done!") effs /\
     (forall e, In e effs -> is_qr_send e = true ->
        e = QrSend generate_qr_sticker_zpl "10.0.0.7" 9100)).
Proof.
  split; [discriminate|]. apply qr_main_sends. discriminate.
Defined.
